(** * NovaEV Global Expansion Assistant (src/app.py)

    A shallow embedding of the Streamlit script [src/app.py] and the
    properties its specification states about it: the priority weights,
    the weighted score, the ranking and its truncation, the telemetry
    feedback rule, and the start-up credential check.

    Numbers are modelled as the script has them: Python [int]s are
    unbounded integers, Python [float]s and pandas [float64] cells are
    IEEE-754 binary64 values (the [spec_float] model of the standard
    library at precision 53, rounding to nearest even), and pandas
    [int64] cells are integers wrapped to 64 bits. *)

From Stdlib Require Import ZArith String Bool Lia List Permutation Sorted.
From Stdlib Require Import PrimFloat SpecFloat FloatOps.
Import ListNotations.

Set Warnings "-inexact-float".
Local Open Scope string_scope.
Local Open Scope list_scope.

(** ** Option as the error monad of lookups ([KeyError], [IndexError]) *)

Definition obind {A B : Type} (m : option A) (k : A -> option B) : option B :=
  match m with
  | Some a => k a
  | None => None
  end.

Notation "x <- m ;; k" := (obind m (fun x => k))
  (at level 61, m at next level, right associativity).

(** ** Binary64 floating point *)

Module F64.

Definition t : Type := spec_float.

Definition add : t -> t -> t := SFadd prec emax.
Definition sub : t -> t -> t := SFsub prec emax.
Definition mul : t -> t -> t := SFmul prec emax.
Definition div : t -> t -> t := SFdiv prec emax.

Definition ltb : t -> t -> bool := SFltb.
Definition eqb : t -> t -> bool := SFeqb.

Definition is_nan (x : t) : bool :=
  match x with
  | S754_nan => true
  | _ => false
  end.

Definition is_finite (x : t) : bool :=
  match x with
  | S754_zero _ | S754_finite _ _ _ => true
  | _ => false
  end.

(** Conversion of an integer, rounding to nearest even. *)
Definition of_Z (z : Z) : t := binary_normalize prec emax z 0 false.

(** The value a decimal literal of the source denotes. *)
Definition lit (x : float) : t := Prim2SF x.

Definition zero : t := S754_zero false.

(** Order key: on values that are not NaN, [SFcompare] is the
    lexicographic comparison of these triples. *)
Definition key (x : t) : Z * Z * Z :=
  match x with
  | S754_nan => (3, 0, 0)
  | S754_infinity true => (-2, 0, 0)
  | S754_infinity false => (2, 0, 0)
  | S754_zero _ => (0, 0, 0)
  | S754_finite true m e => (-1, - e, - Zpos m)
  | S754_finite false m e => (1, e, Zpos m)
  end%Z.

Definition lt3 (a b : Z * Z * Z) : Prop :=
  let '(a1, a2, a3) := a in
  let '(b1, b2, b3) := b in
  (a1 < b1 \/ (a1 = b1 /\ (a2 < b2 \/ (a2 = b2 /\ a3 < b3))))%Z.

End F64.

(** The decimal literals of the script, as binary64 values. *)
Definition f_0_4 : F64.t := Eval vm_compute in F64.lit 0.4%float.
Definition f_0_2 : F64.t := Eval vm_compute in F64.lit 0.2%float.
Definition f_m0_2 : F64.t := Eval vm_compute in F64.lit (-0.2)%float.
Definition f_0_3 : F64.t := Eval vm_compute in F64.lit 0.3%float.
Definition f_0_1 : F64.t := Eval vm_compute in F64.lit 0.1%float.

(** ** Numbers of the script *)

(** A Python number: an [int] or a [float]. *)
Inductive num : Type :=
| I (z : Z)
| F (x : F64.t).

Module Py.

(** [float(z)]: raises [OverflowError] when [z] is too large. *)
Definition to_float (a : num) : option F64.t :=
  match a with
  | I z => let x := F64.of_Z z in
           if F64.is_finite x then Some x else None
  | F x => Some x
  end.

(** [a - b] *)
Definition sub (a b : num) : option num :=
  match a, b with
  | I x, I y => Some (I (x - y))
  | _, _ => x <- to_float a ;; y <- to_float b ;; Some (F (F64.sub x y))
  end.

(** Exact comparison of an [int] with a [float], as Python does it
    ([None] when the float is NaN). *)
Definition cmp_Z_F (z : Z) (x : F64.t) : option comparison :=
  match x with
  | S754_nan => None
  | S754_infinity s => Some (if s then Gt else Lt)
  | S754_zero _ => Some (z ?= 0)%Z
  | S754_finite s m e =>
      let v := cond_Zopp s (Zpos m) in
      if (0 <=? e)%Z then Some (z ?= v * 2 ^ e)%Z
      else Some (z * 2 ^ (- e) ?= v)%Z
  end.

Definition compare (a b : num) : option comparison :=
  match a, b with
  | I x, I y => Some (x ?= y)%Z
  | F x, F y => SFcompare x y
  | I x, F y => cmp_Z_F x y
  | F x, I y => option_map CompOpp (cmp_Z_F y x)
  end.

(** [a < b] *)
Definition lt (a b : num) : bool :=
  match compare a b with
  | Some Lt => true
  | _ => false
  end.

(** [a > b] *)
Definition gt (a b : num) : bool :=
  match compare a b with
  | Some Gt => true
  | _ => false
  end.

(** [x in l] for a list of strings. *)
Definition In_list (x : string) (l : list string) : bool :=
  existsb (String.eqb x) l.

(** A [dict] with string keys, in insertion order. *)
Definition dict (V : Type) : Type := list (string * V).

(** [d[k]]: [None] stands for [KeyError]. *)
Fixpoint get {V : Type} (d : dict V) (k : string) : option V :=
  match d with
  | [] => None
  | (k', v) :: d' => if String.eqb k k' then Some v else get d' k
  end.

(** [k in d] *)
Definition In_dict {V : Type} (k : string) (d : dict V) : bool :=
  existsb (fun kv => String.eqb k (fst kv)) d.

(** [l[-1]] and [l[-2]]: [None] stands for [IndexError]. *)
Definition last1 {A : Type} (l : list A) : option A :=
  nth_error (rev l) 0.
Definition last2 {A : Type} (l : list A) : option A :=
  nth_error (rev l) 1.

End Py.

(** ** pandas Series and DataFrame *)

Module Pd.

(** Two's-complement wrap-around of [int64] arithmetic. *)
Definition wrap64 (z : Z) : Z :=
  ((z + 2 ^ 63) mod 2 ^ 64 - 2 ^ 63)%Z.

(** A column: all its cells have one dtype. *)
Inductive Series : Type :=
| Int64 (l : list Z)
| Float64 (l : list F64.t).

Definition size (s : Series) : nat :=
  match s with
  | Int64 l => length l
  | Float64 l => length l
  end.

(** The cell at position [i], as a number. *)
Definition cell (s : Series) (i : nat) : option num :=
  match s with
  | Int64 l => option_map I (nth_error l i)
  | Float64 l => option_map F (nth_error l i)
  end.

Definition as_float (a : num) : F64.t :=
  match a with
  | I z => F64.of_Z z
  | F x => x
  end.

Definition astype_float (s : Series) : list F64.t :=
  match s with
  | Int64 l => map F64.of_Z l
  | Float64 l => l
  end.

(** Cell arithmetic: [int64] with [int] stays [int64], anything with
    a float is [float64]; [/] is true division and always [float64]. *)
Definition mul (a b : num) : num :=
  match a, b with
  | I x, I y => I (wrap64 (x * y))
  | _, _ => F (F64.mul (as_float a) (as_float b))
  end.

Definition add (a b : num) : num :=
  match a, b with
  | I x, I y => I (wrap64 (x + y))
  | _, _ => F (F64.add (as_float a) (as_float b))
  end.

Definition div (a b : num) : num :=
  F (F64.div (as_float a) (as_float b)).

(** [s * w] for a scalar [w] *)
Definition mul_scalar (s : Series) (w : num) : Series :=
  match s, w with
  | Int64 l, I k => Int64 (map (fun z => wrap64 (z * k)) l)
  | _, _ => Float64 (map (fun x => F64.mul x (as_float w)) (astype_float s))
  end.

(** [s / w] for a scalar [w] *)
Definition div_scalar (s : Series) (w : num) : Series :=
  Float64 (map (fun x => F64.div x (as_float w)) (astype_float s)).

(** [a + b] for two columns of one frame (same index). *)
Definition add_series (a b : Series) : Series :=
  match a, b with
  | Int64 l1, Int64 l2 =>
      Int64 (map (fun p => wrap64 (fst p + snd p)) (combine l1 l2))
  | _, _ =>
      Float64 (map (fun p => F64.add (fst p) (snd p))
                 (combine (astype_float a) (astype_float b)))
  end.

(** Positional selection; [None] stands for [IndexError]. *)
Fixpoint take {A : Type} (ix : list nat) (l : list A) : option (list A) :=
  match ix with
  | [] => Some []
  | i :: ix' =>
      x <- nth_error l i ;; r <- take ix' l ;; Some (x :: r)
  end.

Definition take_series (ix : list nat) (s : Series) : option Series :=
  match s with
  | Int64 l => option_map Int64 (take ix l)
  | Float64 l => option_map Float64 (take ix l)
  end.

Definition head_series (n : nat) (s : Series) : Series :=
  match s with
  | Int64 l => Int64 (firstn n l)
  | Float64 l => Float64 (firstn n l)
  end.

(** The frame of the script: its row labels, its six data columns, and
    the [Score] column once it has been assigned. *)
Record DataFrame : Type := mkDataFrame {
  index : list nat;
  Country : list string;
  EV_Adoption : Series;
  Tariffs : Series;
  Charging_Stations : Series;
  China_Sentiment : Series;
  Market_Size : Series;
  Score : option Series
}.

(** [len(d)] *)
Definition len (d : DataFrame) : nat := length (index d).

(** Every column has one cell per row (the constructor of a frame
    refuses columns of different lengths). *)
Definition wf (d : DataFrame) : Prop :=
  length (Country d) = len d /\
  size (EV_Adoption d) = len d /\
  size (Tariffs d) = len d /\
  size (Charging_Stations d) = len d /\
  size (China_Sentiment d) = len d /\
  size (Market_Size d) = len d /\
  match Score d with
  | Some s => size s = len d
  | None => True
  end.

(** [d["Score"] = s] *)
Definition set_Score (d : DataFrame) (s : Series) : DataFrame :=
  mkDataFrame (index d) (Country d) (EV_Adoption d) (Tariffs d)
    (Charging_Stations d) (China_Sentiment d) (Market_Size d) (Some s).

(** One row of a frame. *)
Record Row : Type := mkRow {
  row_label : nat;
  row_Country : string;
  row_EV_Adoption : num;
  row_Tariffs : num;
  row_Charging_Stations : num;
  row_China_Sentiment : num;
  row_Market_Size : num;
  row_Score : option num
}.

(** [d.iloc[i]]; [None] stands for [IndexError]. *)
Definition iloc (d : DataFrame) (i : nat) : option Row :=
  lbl <- nth_error (index d) i ;;
  c <- nth_error (Country d) i ;;
  ev <- cell (EV_Adoption d) i ;;
  ta <- cell (Tariffs d) i ;;
  cs <- cell (Charging_Stations d) i ;;
  se <- cell (China_Sentiment d) i ;;
  ms <- cell (Market_Size d) i ;;
  match Score d with
  | None => Some (mkRow lbl c ev ta cs se ms None)
  | Some s => sc <- cell s i ;; Some (mkRow lbl c ev ta cs se ms (Some sc))
  end.

(** The rows of a frame, in order. *)
Definition row_list (d : DataFrame) (i : nat) : list Row :=
  match iloc d i with
  | Some r => [r]
  | None => []
  end.

Definition rows (d : DataFrame) : list Row :=
  flat_map (row_list d) (seq 0 (len d)).

(** [d.head(n)] *)
Definition head (n : nat) (d : DataFrame) : DataFrame :=
  mkDataFrame (firstn n (index d)) (firstn n (Country d))
    (head_series n (EV_Adoption d)) (head_series n (Tariffs d))
    (head_series n (Charging_Stations d))
    (head_series n (China_Sentiment d))
    (head_series n (Market_Size d))
    (option_map (head_series n) (Score d)).

Definition take_frame (ix : list nat) (d : DataFrame) : option DataFrame :=
  i' <- take ix (index d) ;;
  c' <- take ix (Country d) ;;
  ev <- take_series ix (EV_Adoption d) ;;
  ta <- take_series ix (Tariffs d) ;;
  cs <- take_series ix (Charging_Stations d) ;;
  se <- take_series ix (China_Sentiment d) ;;
  ms <- take_series ix (Market_Size d) ;;
  match Score d with
  | None => Some (mkDataFrame i' c' ev ta cs se ms None)
  | Some s =>
      s' <- take_series ix s ;;
      Some (mkDataFrame i' c' ev ta cs se ms (Some s'))
  end.

(** *** Sorting *)

Section StableSort.
Context {K : Type}.
Variable ltb : K -> K -> bool.

(** Insert [x] behind the cells that are strictly greater. *)
Fixpoint insert_desc (x : nat * K) (l : list (nat * K)) : list (nat * K) :=
  match l with
  | [] => [x]
  | y :: l' =>
      if ltb (snd x) (snd y) then y :: insert_desc x l' else x :: l
  end.

Fixpoint sort_desc (l : list (nat * K)) : list (nat * K) :=
  match l with
  | [] => []
  | x :: l' => insert_desc x (sort_desc l')
  end.
End StableSort.

(** The cells of a column with their positions. *)
Definition enumerate {K : Type} (l : list K) : list (nat * K) :=
  combine (seq 0 (length l)) l.

(** Modelled from the spec: [sort_values] of pandas, which is not part
    of the repository.  The specification describes the ranking as a
    "stable sort by Score descending"; the model is an insertion sort
    that is stable and descending.  Cells that are NaN compare with
    nothing; they are put last in their input order (the documented
    default [na_position='last']).  The result is the list of input
    positions in output order. *)
Definition argsort_desc (s : Series) : list nat :=
  match s with
  | Int64 l => map fst (sort_desc Z.ltb (enumerate l))
  | Float64 l =>
      let cells := enumerate l in
      map fst (sort_desc F64.ltb
                 (filter (fun p => negb (F64.is_nan (snd p))) cells))
      ++ map fst (filter (fun p => F64.is_nan (snd p)) cells)
  end.

(** [d.sort_values("Score", ascending=False)]: a new frame; [None]
    stands for the [KeyError] of a frame without that column. *)
Definition sort_values_Score_desc (d : DataFrame) : option DataFrame :=
  s <- Score d ;; take_frame (argsort_desc s) d.

End Pd.

(** ** The script: data and tab 1 (market discovery) *)

(** [mock_data] as the frame [pd.DataFrame(mock_data)]: integer columns are
    [int64], [China_Sentiment] is [float64], the row labels are 0..7. *)
Definition mock_data : Pd.DataFrame := Eval vm_compute in
  Pd.mkDataFrame
    (seq 0 8)
    ["Norway"; "UK"; "Australia"; "Germany"; "Mexico"; "India"; "Brazil"; "Thailand"]
    (Pd.Int64 [80; 20; 8; 25; 3; 5; 4; 7]%Z)
    (Pd.Int64 [0; 10; 5; 10; 20; 15; 12; 10]%Z)
    (Pd.Int64 [5000; 700; 300; 1500; 200; 400; 350; 220]%Z)
    (Pd.Float64 (map F64.lit [0.8; 0.7; 0.6; 0.4; 0.5; 0.3; 0.6; 0.7]%float))
    (Pd.Int64 [5; 8; 6; 9; 6; 10; 7; 6]%Z)
    None.

(** The options of the priority multiselect. *)
Definition priority_options : list string :=
  ["EV Adoption"; "Low Import Tariffs"; "Strong Infrastructure";
   "Positive China Sentiment"; "Market Size"].

(** The [weights] dictionary built from the selected priorities. *)
Definition compute_weights (priority : list string) : Py.dict num :=
  [ ("EV Adoption",
      if Py.In_list "EV Adoption" priority then F f_0_4 else I 0);
    ("Tariffs",
      if Py.In_list "Low Import Tariffs" priority then F f_m0_2 else I 0);
    ("Charging_Stations",
      if Py.In_list "Strong Infrastructure" priority then F f_0_2 else I 0);
    ("China_Sentiment",
      if Py.In_list "Positive China Sentiment" priority then F f_0_2 else I 0);
    ("Market_Size",
      if Py.In_list "Market Size" priority then F f_0_2 else I 0) ].

(** The right-hand side of [df["Score"] = ...], column by column. *)
Definition Score_expr (d : Pd.DataFrame) (weights : Py.dict num) : option Pd.Series :=
  w_ev <- Py.get weights "EV Adoption" ;;
  w_ta <- Py.get weights "Tariffs" ;;
  w_cs <- Py.get weights "Charging_Stations" ;;
  w_se <- Py.get weights "China_Sentiment" ;;
  w_ms <- Py.get weights "Market_Size" ;;
  Some
    (Pd.add_series
       (Pd.add_series
          (Pd.add_series
             (Pd.add_series
                (Pd.mul_scalar (Pd.EV_Adoption d) w_ev)
                (Pd.mul_scalar (Pd.Tariffs d) w_ta))
             (Pd.mul_scalar (Pd.div_scalar (Pd.Charging_Stations d) (I 100)) w_cs))
          (Pd.mul_scalar (Pd.mul_scalar (Pd.China_Sentiment d) (I 10)) w_se))
       (Pd.mul_scalar (Pd.Market_Size d) w_ms)).

(** The score of one record as the specification writes it. *)
Definition score (r : Pd.Row) (w_ev w_ta w_cs w_se w_ms : num) : num :=
  Pd.add
    (Pd.add
       (Pd.add
          (Pd.add
             (Pd.mul (Pd.row_EV_Adoption r) w_ev)
             (Pd.mul (Pd.row_Tariffs r) w_ta))
          (Pd.mul (Pd.div (Pd.row_Charging_Stations r) (I 100)) w_cs))
       (Pd.mul (Pd.mul (Pd.row_China_Sentiment r) (I 10)) w_se))
    (Pd.mul (Pd.row_Market_Size r) w_ms).

(** [rank]: assign the scores, then sort by them. *)
Definition rank (d : Pd.DataFrame) (weights : Py.dict num) : option Pd.DataFrame :=
  s <- Score_expr d weights ;;
  Pd.sort_values_Score_desc (Pd.set_Score d s).

(** [top_n]: [ranked.head(n)]. *)
Definition top_n (ranked : Pd.DataFrame) (n : nat) : Pd.DataFrame :=
  Pd.head n ranked.

(** UI labels to column names. *)
Definition priority_map : Py.dict string :=
  [ ("EV Adoption", "EV_Adoption");
    ("Low Import Tariffs", "Tariffs");
    ("Strong Infrastructure", "Charging_Stations");
    ("Positive China Sentiment", "China_Sentiment");
    ("Market Size", "Market_Size") ].

(** [[priority_map[k] for k in priority if k in priority_map]] *)
Fixpoint selected_cols (priority : list string) : option (list string) :=
  match priority with
  | [] => Some []
  | k :: rest =>
      if Py.In_dict k priority_map
      then c <- Py.get priority_map k ;;
           cs <- selected_cols rest ;; Some (c :: cs)
      else selected_cols rest
  end.

(** The selection restricted to the five known flags. *)
Definition known_only (priority : list string) : list string :=
  filter (fun k => Py.In_list k priority_options) priority.

(** ** Tab 3: telemetry feedback *)

Definition telemetry : Py.dict (Py.dict (list num)) := Eval vm_compute in
  let fl := map (fun x => F (F64.lit x)) in
  let il := map I in
  [ ("Norway",
      [ ("CTR", fl [1.2; 1.5; 1.8; 2.2]%float);
        ("CPI", il [20; 18; 15; 12]%Z);
        ("Retention", il [30; 35; 40; 42]%Z);
        ("Media_Sentiment", fl [0.2; 0.25; 0.3; 0.35]%float);
        ("Engagement", il [100; 120; 140; 160]%Z) ]);
    ("UK",
      [ ("CTR", fl [1.0; 1.2; 1.3; 1.4]%float);
        ("CPI", il [25; 24; 23; 22]%Z);
        ("Retention", il [25; 28; 30; 32]%Z);
        ("Media_Sentiment", fl [0.1; 0.15; 0.18; 0.2]%float);
        ("Engagement", il [90; 95; 100; 105]%Z) ]);
    ("Germany",
      [ ("CTR", fl [0.8; 0.9; 1.0; 1.1]%float);
        ("CPI", il [30; 29; 28; 27]%Z);
        ("Retention", il [20; 22; 25; 26]%Z);
        ("Media_Sentiment", fl [0.15; 0.17; 0.18; 0.2]%float);
        ("Engagement", il [80; 85; 87; 90]%Z) ]) ].

Definition kpi_options : list string :=
  ["CTR (Click Through Rate)"; "CPI (Cost per Install)";
   "Retention"; "Media Sentiment"; "Engagement"].

Definition kpi_map : Py.dict string :=
  [ ("CTR (Click Through Rate)", "CTR");
    ("CPI (Cost per Install)", "CPI");
    ("Retention", "Retention");
    ("Media Sentiment", "Media_Sentiment");
    ("Engagement", "Engagement") ].

Definition higher_is_better : list string :=
  ["CTR"; "Retention"; "Media_Sentiment"; "Engagement"].

Definition note_momentum : string :=
  "📈 Great momentum – double down on current messaging.".
Definition note_underwhelming : string :=
  "⚠️ Underwhelming – revise creative and reassess influencers.".
Definition note_stable : string :=
  "✅ Stable – maintain course, watch for regional shifts.".

(** [trend = stats[metric][-1] - stats[metric][-2]] *)
Definition trend (stats : Py.dict (list num)) (metric : string) : option num :=
  series <- Py.get stats metric ;;
  a <- Py.last1 series ;;
  b <- Py.last2 series ;;
  Py.sub a b.

(** The [if]/[elif]/[else] that chooses the note. *)
Definition note (metric : string) (trend : num) : string :=
  if (Py.In_list metric higher_is_better && Py.gt trend (F f_0_3))
     || (String.eqb metric "CPI" && Py.lt trend (I (-2)))
  then note_momentum
  else if (Py.In_list metric higher_is_better && Py.lt trend (F f_0_1))
          || (String.eqb metric "CPI" && Py.gt trend (I 1))
  then note_underwhelming
  else note_stable.

(** The note of one region. *)
Definition feedback (stats : Py.dict (list num)) (metric : string) : option string :=
  t <- trend stats metric ;; Some (note metric t).

(** ** The script as a whole

    One run of the script: it emits what the page shows, it may stop
    ([st.stop()]) or end in an uncaught exception, and it works on a store
    of frames ([df] is one shared object: tab 1 assigns its [Score]
    column, tab 2 reads it). *)

Module St.

(** The pieces of an f-string: literal text and formatted values. *)
Inductive frag : Type :=
| Str (s : string)
| Fmt (v : num) (spec : string).

Definition text : Type := list frag.

Inductive Figure : Type :=
| Bar (data : Pd.DataFrame)
| Radar (data : Pd.DataFrame) (cols : list string)
| Lines (fig_title : string) (traces : list (string * list num)).

Inductive Event : Type :=
| set_page_config (page_title : string)
| markdown (body : text)
| title (s : string)
| error (s : string)
| tabs (labels : list string)
| multiselect (label : string) (options : list string)
| slider (label : string) (min_value max_value value : nat)
| columns (spec : list nat)
| dataframe (data : Pd.DataFrame)
| plotly_chart (fig : Figure)
| selectbox (label : string) (options : list string)
| text_input (label value : string)
| button (label : string)
| spinner (label : string)
| chat_completion (model : string) (messages : list (string * text))
| success (s : string)
| subheader (s : string).

Inductive outcome (A : Type) : Type :=
| Done (a : A)
| Stopped
| Raised (exc : string).
Arguments Done {A} a.
Arguments Stopped {A}.
Arguments Raised {A} exc.

(** The frames that exist, by address. *)
Definition heap : Type := list Pd.DataFrame.
Definition addr : Type := nat.

Definition M (A : Type) : Type := heap -> list Event * heap * outcome A.

Definition ret {A : Type} (a : A) : M A := fun h => ([], h, Done a).

Definition bind {A B : Type} (m : M A) (k : A -> M B) : M B :=
  fun h =>
    match m h with
    | (ev, h1, Done a) =>
        match k a h1 with
        | (ev2, h2, o) => (ev ++ ev2, h2, o)
        end
    | (ev, h1, Stopped) => (ev, h1, Stopped)
    | (ev, h1, Raised e) => (ev, h1, Raised e)
    end.

Definition emit (e : Event) : M unit := fun h => ([e], h, Done tt).

(** [st.stop()] *)
Definition stop {A : Type} : M A := fun h => ([], h, Stopped).

Definition raise {A : Type} (exc : string) : M A := fun h => ([], h, Raised exc).

(** A lookup that raises [exc] when it fails. *)
Definition lift {A : Type} (exc : string) (o : option A) : M A :=
  match o with
  | Some a => ret a
  | None => raise exc
  end.

(** [try: m  except Exception: handler] *)
Definition try_except {A : Type} (m : M A) (handler : M A) : M A :=
  fun h =>
    match m h with
    | (ev, h1, Raised _) =>
        match handler h1 with
        | (ev2, h2, o) => (ev ++ ev2, h2, o)
        end
    | r => r
    end.

Definition new (d : Pd.DataFrame) : M addr :=
  fun h => ([], h ++ [d], Done (length h)).

Definition read (a : addr) : M Pd.DataFrame :=
  fun h => lift "NameError" (nth_error h a) h.

Fixpoint update (h : heap) (a : addr) (d : Pd.DataFrame) : heap :=
  match h, a with
  | [], _ => []
  | _ :: h', O => d :: h'
  | x :: h', S a' => x :: update h' a' d
  end.

Definition write (a : addr) (d : Pd.DataFrame) : M unit :=
  fun h => ([], update h a d, Done tt).

Fixpoint for_each {A : Type} (l : list A) (body : A -> M unit) : M unit :=
  match l with
  | [] => ret tt
  | x :: l' => bind (body x) (fun _ => for_each l' body)
  end.

Fixpoint traverse {A B : Type} (f : A -> option B) (l : list A) : option (list B) :=
  match l with
  | [] => Some []
  | x :: l' => y <- f x ;; r <- traverse f l' ;; Some (y :: r)
  end.

End St.

Notation "x <== m ;; k" := (St.bind m (fun x => k))
  (at level 61, m at next level, right associativity).
Notation "m ;;; k" := (St.bind m (fun _ => k))
  (at level 61, right associativity).

(** What the run gets from outside: the secrets store, the constructor of
    the API client, the chat service, and what the user has entered in the
    widgets. *)
Record Env : Type := mkEnv {
  secrets : Py.dict string;
  OpenAI : string -> option string;
  chat_create : list (string * St.text) -> option string
}.

Record Inputs : Type := mkInputs {
  in_priority : list string;
  in_top_n : nat;
  in_selected_country : string;
  in_product_type : string;
  in_price_point : string;
  in_target_demo : string;
  in_button : bool;
  in_selected_kpi : string
}.

(** The body of the [try]: read the secret and build the client. *)
Definition load_client (env : Env) : option string :=
  key <- Py.get (secrets env) "OPENAI_API_KEY" ;; OpenAI env key.

Definition css : string := "
<style>
section.main > div {padding-top: 2rem;}
.block-container {padding-top: 1rem; padding-bottom: 2rem;}
</style>
".

Definition key_error_message : string :=
  "❌ Missing or invalid OpenAI API key in `secrets.toml`.".

(** [st.slider(label, min_value, max_value, value)]: the default must lie
    in the range; the widget yields the user's value, which it keeps in
    the range. *)
Definition slider_widget (label : string) (lo hi dflt user : nat) : St.M nat :=
  if (lo <=? dflt)%nat && (dflt <=? hi)%nat then
    St.emit (St.slider label lo hi dflt) ;;;
    St.ret (if (lo <=? user)%nat && (user <=? hi)%nat then user else dflt)
  else St.raise "StreamlitAPIException".

(** Lines 49-64: weights, the [Score] column assigned to [df] in place,
    and the sorted frame, a new object. *)
Definition rank_step (priority : list string) (df : St.addr) : St.M St.addr :=
  let weights := compute_weights priority in
  d <== St.read df ;;
  s <== St.lift "KeyError" (Score_expr d weights) ;;
  St.write df (Pd.set_Score d s) ;;;
  d' <== St.read df ;;
  r <== St.lift "KeyError" (Pd.sort_values_Score_desc d') ;;
  St.new r.

Definition tab1 (inp : Inputs) (df : St.addr) : St.M unit :=
  St.emit (St.multiselect "Select key priorities:" priority_options) ;;;
  let priority := in_priority inp in
  ranked <== rank_step priority df ;;
  r <== St.read ranked ;;
  n <== slider_widget "Show top N markets:" 3 (Pd.len r) 5 (in_top_n inp) ;;
  St.emit (St.columns [1; 2]) ;;;
  St.emit (St.dataframe (top_n r n)) ;;;
  row0 <== St.lift "IndexError" (Pd.iloc r 0) ;;
  let top_country := Pd.row_Country row0 in
  sc <== St.lift "KeyError" (Pd.row_Score row0) ;;
  St.emit (St.markdown
             [St.Str "🏆 **Top-ranked market:** `"; St.Str top_country;
              St.Str "` with score **"; St.Fmt sc ".2f"; St.Str "**"]) ;;;
  St.emit (St.plotly_chart (St.Bar (top_n r n))) ;;;
  cols <== St.lift "KeyError" (selected_cols priority) ;;
  if (3 <=? length cols)%nat then
    St.emit (St.markdown [St.Str "📊 **Top Market Profiles (Radar Chart)**"]) ;;;
    St.emit (St.plotly_chart (St.Radar (top_n r n) cols))
  else St.ret tt.

Definition prompt (country_data : Pd.Row)
    (product_type price_point target_demo : string) : St.text :=
  [ St.Str "
You are an expert global marketing consultant specializing in automotive go-to-market (GTM) strategies.
A Chinese electric vehicle company, NovaEV, wants to expand to the ";
    St.Str (Pd.row_Country country_data);
    St.Str " market.

Market context data:
- EV Adoption Rate: "; St.Fmt (Pd.row_EV_Adoption country_data) "";
    St.Str "%
- Vehicle Import Tariffs: "; St.Fmt (Pd.row_Tariffs country_data) "";
    St.Str "%
- Charging Infrastructure: "; St.Fmt (Pd.row_Charging_Stations country_data) "";
    St.Str " stations
- Public Sentiment towards Chinese Brands: Score ";
    St.Fmt (Pd.row_China_Sentiment country_data) "";
    St.Str "/1
- Market Size Index: "; St.Fmt (Pd.row_Market_Size country_data) "";
    St.Str " / 10

NovaEV's Product Profile:
- Type: "; St.Str product_type;
    St.Str "
- Price point: "; St.Str price_point;
    St.Str "
- Target: "; St.Str target_demo;
    St.Str "

Generate a GTM launch plan with:
1. Entry strategy
2. Positioning & messaging
3. Key content themes
4. Influencer/media recommendations (3+)
" ].

Definition tab2 (env : Env) (inp : Inputs) (df : St.addr) : St.M unit :=
  d <== St.read df ;;
  St.emit (St.selectbox "Choose a target market:" (Pd.Country d)) ;;;
  let selected_country := in_selected_country inp in
  country_data <== St.lift "IndexError"
    (find (fun r => String.eqb (Pd.row_Country r) selected_country) (Pd.rows d)) ;;
  St.emit (St.text_input "Product Type" (in_product_type inp)) ;;;
  St.emit (St.text_input "Price Point" (in_price_point inp)) ;;;
  St.emit (St.text_input "Target Demographic" (in_target_demo inp)) ;;;
  let p := prompt country_data (in_product_type inp) (in_price_point inp)
             (in_target_demo inp) in
  St.emit (St.button "🧠 Generate Strategy") ;;;
  if in_button inp then
    let messages :=
      [ ("system", [St.Str "You are a global marketing consultant."]);
        ("user", p) ] in
    St.emit (St.spinner "Thinking like a strategist...") ;;;
    St.emit (St.chat_completion "gpt-4" messages) ;;;
    response <== St.lift "APIError" (chat_create env messages) ;;
    St.emit (St.success "Strategy ready!") ;;;
    St.emit (St.markdown [St.Str response])
  else St.ret tt.

Definition tab3 (inp : Inputs) : St.M unit :=
  St.emit (St.selectbox "Select KPI to visualize:" kpi_options) ;;;
  let selected_kpi := in_selected_kpi inp in
  metric <== St.lift "KeyError" (Py.get kpi_map selected_kpi) ;;
  traces <== St.lift "KeyError"
    (St.traverse (fun rs => y <- Py.get (snd rs) metric ;; Some (fst rs, y))
       telemetry) ;;
  St.emit (St.columns [2; 1]) ;;;
  St.emit (St.plotly_chart (St.Lines (selected_kpi ++ " by Region") traces)) ;;;
  St.emit (St.subheader "Strategy Feedback") ;;;
  St.for_each telemetry (fun rs =>
    nt <== St.lift "Exception" (feedback (snd rs) metric) ;;
    St.emit (St.markdown [St.Str "**"; St.Str (fst rs); St.Str ":** "; St.Str nt])).

(** The script, top to bottom. *)
Definition script (env : Env) (inp : Inputs) : St.M unit :=
  St.emit (St.set_page_config "Global Market Expansion") ;;;
  St.emit (St.markdown [St.Str css]) ;;;
  St.emit (St.title "Global Market Expansion Platform") ;;;
  client <== St.try_except (St.lift "Exception" (load_client env))
               (St.emit (St.error key_error_message) ;;; St.stop) ;;
  df <== St.new mock_data ;;
  St.emit (St.tabs ["🌍 Market Discovery"; "🎯 GTM Strategy"; "📊 Monitor & Adapt"]) ;;;
  tab1 inp df ;;;
  tab2 env inp df ;;;
  tab3 inp.

(** A run with a working credential and the widgets left at their
    defaults. *)
Definition env_ok : Env :=
  mkEnv [("OPENAI_API_KEY", "sk-test")] (fun k => Some k) (fun _ => Some "plan").

Definition env_no_secret : Env :=
  mkEnv [] (fun k => Some k) (fun _ => Some "plan").

Definition inputs_default : Inputs :=
  mkInputs [] 5 "Norway" "Compact urban electric car" "~$20,000 USD"
    "Urban professionals, 25–40, eco-conscious, value-focused" false
    "CTR (Click Through Rate)".

Definition all_priorities : list string := priority_options.

(** The first record of the table, and the value 33.0. *)
Definition norway : Pd.Row := Eval vm_compute in
  Pd.mkRow 0 "Norway" (I 80) (I 0) (I 5000) (F (F64.lit 0.8%float)) (I 5) None.

Definition f_33 : F64.t := Eval vm_compute in F64.lit 33.0%float.

(** One line of the weight table of the specification: the coefficient
    under [key] is [c] exactly when [flag] is selected, and it is the
    integer 0 exactly when it is not. *)
Definition weight_rule (P : list string) (flag key : string) (c : F64.t) : Prop :=
  (Py.get (compute_weights P) key = Some (F c) <-> In flag P) /\
  (Py.get (compute_weights P) key = Some (I 0) <-> ~ In flag P).

(** The cells of a float column in ranked order, with their input
    positions: [argsort_desc] is its first projection. *)
Definition sorted_cells (l : list F64.t) : list (nat * F64.t) :=
  Pd.sort_desc F64.ltb
    (filter (fun p => negb (F64.is_nan (snd p))) (Pd.enumerate l))
  ++ filter (fun p => F64.is_nan (snd p)) (Pd.enumerate l).

(** What a stable descending order asks of a cell [a] placed before a
    cell [b]: [b] is not strictly greater, and if they are equal then [a]
    came first in the input. *)
Definition ranked_before (a b : nat * F64.t) : Prop :=
  F64.ltb (snd a) (snd b) = false /\
  (F64.eqb (snd a) (snd b) = true -> fst a < fst b).

Definition position_lt {K : Type} (a b : nat * K) : Prop := fst a < fst b.

(** A cell that is not NaN. *)
Definition not_nan (a : nat * F64.t) : Prop := F64.is_nan (snd a) = false.

(** ** What a run shows, part by part *)

(** The page header, emitted before the credential is loaded. *)
Definition header : list St.Event :=
  [ St.set_page_config "Global Market Expansion";
    St.markdown [St.Str css];
    St.title "Global Market Expansion Platform" ].

Definition tab_labels : list string :=
  ["🌍 Market Discovery"; "🎯 GTM Strategy"; "📊 Monitor & Adapt"].

(** The value the slider yields. *)
Definition slider_value (lo hi dflt user : nat) : nat :=
  if (lo <=? user)%nat && (user <=? hi)%nat then user else dflt.

(** What tab 1 shows when nothing raises: the widgets, the first [n]
    ranked rows, the top-ranked market, the bar chart, and the radar
    chart when at least three columns are selected. *)
Definition tab1_page (ranked : Pd.DataFrame) (n : nat) (top : Pd.Row)
    (sc : num) (cols : list string) : list St.Event :=
  [ St.multiselect "Select key priorities:" priority_options;
    St.slider "Show top N markets:" 3 (Pd.len ranked) 5;
    St.columns [1; 2];
    St.dataframe (top_n ranked n);
    St.markdown
      [St.Str "🏆 **Top-ranked market:** `"; St.Str (Pd.row_Country top);
       St.Str "` with score **"; St.Fmt sc ".2f"; St.Str "**"];
    St.plotly_chart (St.Bar (top_n ranked n)) ]
  ++ (if (3 <=? length cols)%nat
      then [ St.markdown [St.Str "📊 **Top Market Profiles (Radar Chart)**"];
             St.plotly_chart (St.Radar (top_n ranked n) cols) ]
      else []).

(** The form of tab 2. *)
Definition tab2_form (d : Pd.DataFrame) (inp : Inputs) : list St.Event :=
  [ St.selectbox "Choose a target market:" (Pd.Country d);
    St.text_input "Product Type" (in_product_type inp);
    St.text_input "Price Point" (in_price_point inp);
    St.text_input "Target Demographic" (in_target_demo inp);
    St.button "🧠 Generate Strategy" ].

(** The two messages sent to the chat service. *)
Definition tab2_messages (country_data : Pd.Row) (inp : Inputs)
    : list (string * St.text) :=
  [ ("system", [St.Str "You are a global marketing consultant."]);
    ("user", prompt country_data (in_product_type inp) (in_price_point inp)
               (in_target_demo inp)) ].

(** The row of the target market. *)
Definition country_data_of (d : Pd.DataFrame) (selected_country : string)
    : option Pd.Row :=
  find (fun r => String.eqb (Pd.row_Country r) selected_country) (Pd.rows d).

(** One line of feedback. *)
Definition feedback_line (region nt : string) : St.Event :=
  St.markdown [St.Str "**"; St.Str region; St.Str ":** "; St.Str nt].

(** A row without its score. *)
Definition without_Score (r : Pd.Row) : Pd.Row :=
  Pd.mkRow (Pd.row_label r) (Pd.row_Country r) (Pd.row_EV_Adoption r)
    (Pd.row_Tariffs r) (Pd.row_Charging_Stations r)
    (Pd.row_China_Sentiment r) (Pd.row_Market_Size r) None.

(** A chat service that is down, and a pressed button. *)
Definition env_api_down : Env :=
  mkEnv [("OPENAI_API_KEY", "sk-test")] (fun k => Some k) (fun _ => None).

Definition inputs_pressed : Inputs :=
  mkInputs ["EV Adoption"; "Market Size"; "Low Import Tariffs"] 3 "Germany"
    "Compact urban electric car" "~$20,000 USD"
    "Urban professionals" true "CPI (Cost per Install)".

(** The traces of the KPI chart and the notes of the feedback column,
    region by region. *)
Definition traces_for (metric : string) : option (list (string * list num)) :=
  St.traverse (fun rs => y <- Py.get (snd rs) metric ;; Some (fst rs, y))
    telemetry.

Definition notes_for (metric : string) : option (list (string * string)) :=
  St.traverse (fun rs => nt <- feedback (snd rs) metric ;; Some (fst rs, nt))
    telemetry.

(** What tab 3 shows when nothing raises. *)
Definition tab3_page (selected_kpi : string)
    (traces : list (string * list num)) (notes : list (string * string))
    : list St.Event :=
  [ St.selectbox "Select KPI to visualize:" kpi_options;
    St.columns [2; 1];
    St.plotly_chart (St.Lines (selected_kpi ++ " by Region") traces);
    St.subheader "Strategy Feedback" ]
  ++ map (fun rn => feedback_line (fst rn) (snd rn)) notes.

(** ** The table ranked by market size

    The selection [Market Size] gives the table five distinct scores,
    one of them (1.2000000000000002) shared by Australia, Mexico and
    Thailand; the ranking then has strictly ordered rows and a tie. *)
Definition market_size_scores : Pd.Series := Eval vm_compute in
  Pd.Float64
    (map F64.lit
       [1.0; 1.6; 1.2000000000000002; 1.8; 1.2000000000000002; 2.0;
        1.4000000000000001; 1.2000000000000002]%float).

Definition market_size_ranked : Pd.DataFrame := Eval vm_compute in
  Pd.mkDataFrame
    [5; 3; 1; 6; 2; 4; 7; 0]
    ["India"; "Germany"; "UK"; "Brazil"; "Australia"; "Mexico"; "Thailand";
     "Norway"]
    (Pd.Int64 [5; 25; 20; 4; 8; 3; 7; 80]%Z)
    (Pd.Int64 [15; 10; 10; 12; 5; 20; 10; 0]%Z)
    (Pd.Int64 [400; 1500; 700; 350; 300; 200; 220; 5000]%Z)
    (Pd.Float64 (map F64.lit [0.3; 0.4; 0.7; 0.6; 0.6; 0.5; 0.7; 0.8]%float))
    (Pd.Int64 [10; 9; 8; 7; 6; 6; 6; 5]%Z)
    (Some (Pd.Float64
             (map F64.lit
                [2.0; 1.8; 1.6; 1.4000000000000001; 1.2000000000000002;
                 1.2000000000000002; 1.2000000000000002; 1.0]%float))).

(** Its first row (India, score 2.0) and its last (Norway, score 1.0). *)
Definition market_size_first : Pd.Row := Eval vm_compute in
  Pd.mkRow 5 "India" (I 5) (I 15) (I 400) (F (F64.lit 0.3%float)) (I 10)
    (Some (F (F64.lit 2.0%float))).

Definition market_size_last : Pd.Row := Eval vm_compute in
  Pd.mkRow 0 "Norway" (I 80) (I 0) (I 5000) (F (F64.lit 0.8%float)) (I 5)
    (Some (F (F64.lit 1.0%float))).

(** * Properties *)

(** ** The order of binary64 values *)

Module F64Facts.

Ltac by_cases :=
  repeat match goal with
    | s : bool |- _ => destruct s
    end;
  cbn in *; try discriminate; try reflexivity; try lia.

Lemma ltb_key (x y : F64.t) :
  F64.is_nan x = false -> F64.is_nan y = false ->
  (F64.ltb x y = true <-> F64.lt3 (F64.key x) (F64.key y)).
Proof.
  unfold F64.ltb, SFltb.
  destruct x as [sx | sx | | sx mx ex], y as [sy | sy | | sy my ey];
    intros Hx Hy; try discriminate; clear Hx Hy;
    try (by_cases; split; intros; try discriminate; try lia; reflexivity).
  destruct sx, sy; cbn;
    change (Pos.compare_cont Eq mx my) with (Pos.compare mx my);
    destruct (Z.compare_spec ex ey); destruct (Pos.compare_spec mx my);
    cbn; split; intros; try discriminate; try lia; try reflexivity.
Qed.

Lemma eqb_key (x y : F64.t) :
  F64.is_nan x = false -> F64.is_nan y = false ->
  (F64.eqb x y = true <-> F64.key x = F64.key y).
Proof.
  unfold F64.eqb, SFeqb.
  destruct x as [sx | sx | | sx mx ex], y as [sy | sy | | sy my ey];
    intros Hx Hy; try discriminate; clear Hx Hy;
    try (by_cases; split; intros; try discriminate; try lia; reflexivity).
  destruct sx, sy; cbn;
    change (Pos.compare_cont Eq mx my) with (Pos.compare mx my);
    destruct (Z.compare_spec ex ey); destruct (Pos.compare_spec mx my);
    cbn; split; intros H'; try discriminate; try reflexivity;
    try (injection H'; intros; lia); try (f_equal; try f_equal; lia).
Qed.

Lemma ltb_nan_l (x y : F64.t) : F64.is_nan x = true -> F64.ltb x y = false.
Proof. destruct x; try discriminate. destruct y; reflexivity. Qed.

Lemma ltb_nan_r (x y : F64.t) : F64.is_nan y = true -> F64.ltb x y = false.
Proof. destruct y; try discriminate. destruct x; reflexivity. Qed.

Lemma eqb_nan_l (x y : F64.t) : F64.is_nan x = true -> F64.eqb x y = false.
Proof. destruct x; try discriminate. destruct y; reflexivity. Qed.

Lemma eqb_nan_r (x y : F64.t) : F64.is_nan y = true -> F64.eqb x y = false.
Proof. destruct y; try discriminate. destruct x; reflexivity. Qed.

Ltac keys :=
  repeat match goal with
    | |- context [F64.key ?x] =>
        let a := fresh "a" in let b := fresh "b" in let c := fresh "c" in
        destruct (F64.key x) as [[a b] c]
    | H : context [F64.key ?x] |- _ =>
        let a := fresh "a" in let b := fresh "b" in let c := fresh "c" in
        destruct (F64.key x) as [[a b] c]
    end;
  unfold F64.lt3 in *.

Lemma ltb_false_key (x y : F64.t) :
  F64.is_nan x = false -> F64.is_nan y = false ->
  (F64.ltb x y = false <-> ~ F64.lt3 (F64.key x) (F64.key y)).
Proof.
  intros Hx Hy. rewrite <- (ltb_key x y Hx Hy).
  destruct (F64.ltb x y); split; congruence.
Qed.

(** [<] is transitive. *)
Lemma ltb_trans (x y z : F64.t) :
  F64.ltb x y = true -> F64.ltb y z = true -> F64.ltb x z = true.
Proof.
  intros Hxy Hyz.
  destruct (F64.is_nan x) eqn:Nx; [rewrite ltb_nan_l in Hxy; congruence |].
  destruct (F64.is_nan y) eqn:Ny; [rewrite ltb_nan_r in Hxy; congruence |].
  destruct (F64.is_nan z) eqn:Nz; [rewrite ltb_nan_r in Hyz; congruence |].
  rewrite ltb_key in * by assumption. keys. lia.
Qed.

Lemma ltb_asym (x y : F64.t) : F64.ltb x y = true -> F64.ltb y x = false.
Proof.
  intros Hxy.
  destruct (F64.is_nan x) eqn:Nx; [rewrite ltb_nan_l in Hxy; congruence |].
  destruct (F64.is_nan y) eqn:Ny; [rewrite ltb_nan_r in Hxy; congruence |].
  rewrite ltb_false_key by assumption.
  rewrite ltb_key in Hxy by assumption. keys. lia.
Qed.

(** "Not less than" is transitive on values that are not NaN. *)
Lemma ltb_false_trans (x y z : F64.t) :
  F64.is_nan x = false -> F64.is_nan y = false -> F64.is_nan z = false ->
  F64.ltb x y = false -> F64.ltb y z = false -> F64.ltb x z = false.
Proof.
  intros Nx Ny Nz Hxy Hyz.
  rewrite ltb_false_key in * by assumption. keys. lia.
Qed.

Lemma eqb_not_nan (x y : F64.t) :
  F64.eqb x y = true -> F64.is_nan x = false /\ F64.is_nan y = false.
Proof.
  intros H. split.
  - destruct (F64.is_nan x) eqn:N; [rewrite eqb_nan_l in H; congruence | reflexivity].
  - destruct (F64.is_nan y) eqn:N; [rewrite eqb_nan_r in H; congruence | reflexivity].
Qed.

(** Equal values are not ordered either way. *)
Lemma eqb_ltb (x y : F64.t) :
  F64.eqb x y = true -> F64.ltb x y = false /\ F64.ltb y x = false.
Proof.
  intros H. destruct (eqb_not_nan x y H) as [Nx Ny].
  rewrite eqb_key in H by assumption.
  rewrite !ltb_false_key by assumption. rewrite H. keys. lia.
Qed.

End F64Facts.

(** ** Lists, dictionaries and membership *)

Lemma In_list_In (x : string) (l : list string) :
  Py.In_list x l = true <-> In x l.
Proof.
  unfold Py.In_list. rewrite existsb_exists. split.
  - intros [y [Hy He]]. apply String.eqb_eq in He. now subst.
  - intros H. exists x. split; [assumption | apply String.eqb_refl].
Qed.

Lemma In_list_false (x : string) (l : list string) :
  Py.In_list x l = false <-> ~ In x l.
Proof.
  rewrite <- In_list_In. destruct (Py.In_list x l); split; congruence.
Qed.

Lemma In_list_filter (f : string -> bool) (x : string) (l : list string) :
  Py.In_list x (filter f l) = Py.In_list x l && f x.
Proof.
  unfold Py.In_list.
  induction l as [| y l IH]; [reflexivity |].
  cbn [filter existsb].
  destruct (String.eqb_spec x y) as [-> | Hne].
  - destruct (f y) eqn:Fy; cbn [existsb orb andb].
    + now rewrite String.eqb_refl.
    + rewrite IH. apply andb_false_r.
  - destruct (f y) eqn:Fy; cbn [existsb orb]; [| exact IH].
    apply String.eqb_neq in Hne. rewrite Hne. exact IH.
Qed.

Lemma In_dict_get {V : Type} (k : string) (d : Py.dict V) :
  Py.In_dict k d = true -> exists v, Py.get d k = Some v.
Proof.
  induction d as [| [k' v] d IH]; cbn; [discriminate |].
  destruct (String.eqb k k'); cbn; [intros _; now exists v | exact IH].
Qed.

Lemma nth_error_combine {A B : Type} (l1 : list A) (l2 : list B) (i : nat) :
  nth_error (combine l1 l2) i =
  match nth_error l1 i, nth_error l2 i with
  | Some a, Some b => Some (a, b)
  | _, _ => None
  end.
Proof.
  revert l2 i. induction l1 as [| a l1 IH]; intros [| b l2] [| i]; cbn;
    try reflexivity.
  - now destruct (nth_error l1 i).
  - apply IH.
Qed.

(** ** Weights (claims C2 and C7) *)

Lemma weight_rule_intro (P : list string) (flag key : string) (c : F64.t) :
  Py.get (compute_weights P) key
    = Some (if Py.In_list flag P then F c else I 0) ->
  weight_rule P flag key c.
Proof.
  intros H. unfold weight_rule. rewrite H. clear H.
  destruct (Py.In_list flag P) eqn:E.
  - apply In_list_In in E. repeat split; intros; try assumption;
      try reflexivity; try discriminate; contradiction.
  - apply In_list_false in E. repeat split; intros; try assumption;
      try reflexivity; try discriminate; contradiction.
Qed.

(** C2. [compute_weights] has exactly the five keys of the table, and
    under each key the coefficient of the table (0.4, -0.2, 0.2, 0.2, 0.2)
    if and only if the flag of that line is selected, and 0 if and only if
    it is not: a coefficient other than 0 occurs only for a selected
    flag. *)
Theorem compute_weights_table (P : list string) :
  map fst (compute_weights P)
    = ["EV Adoption"; "Tariffs"; "Charging_Stations"; "China_Sentiment";
       "Market_Size"] /\
  weight_rule P "EV Adoption" "EV Adoption" f_0_4 /\
  weight_rule P "Low Import Tariffs" "Tariffs" f_m0_2 /\
  weight_rule P "Strong Infrastructure" "Charging_Stations" f_0_2 /\
  weight_rule P "Positive China Sentiment" "China_Sentiment" f_0_2 /\
  weight_rule P "Market Size" "Market_Size" f_0_2.
Proof.
  split; [reflexivity |].
  repeat match goal with |- _ /\ _ => split end;
    apply weight_rule_intro; reflexivity.
Qed.

Lemma In_list_known_only (flag : string) (P : list string) :
  Py.In_list flag priority_options = true ->
  Py.In_list flag (known_only P) = Py.In_list flag P.
Proof.
  intros H. unfold known_only. rewrite In_list_filter, H.
  apply andb_true_r.
Qed.

Lemma compute_weights_known_only (P : list string) :
  compute_weights (known_only P) = compute_weights P.
Proof.
  unfold compute_weights.
  rewrite !In_list_known_only by reflexivity. reflexivity.
Qed.

Lemma In_dict_priority_map (k : string) :
  Py.In_dict k priority_map = Py.In_list k priority_options.
Proof. reflexivity. Qed.

Lemma selected_cols_known_only (P : list string) :
  selected_cols (known_only P) = selected_cols P.
Proof.
  induction P as [| k P IH]; [reflexivity |].
  cbn [known_only filter selected_cols]. fold (known_only P).
  rewrite In_dict_priority_map.
  destruct (Py.In_list k priority_options) eqn:E; [| exact IH].
  cbn [selected_cols]. rewrite In_dict_priority_map, E, IH. reflexivity.
Qed.

Lemma selected_cols_total (P : list string) :
  exists cols, selected_cols P = Some cols.
Proof.
  induction P as [| k P [cols IH]]; [now exists [] |].
  cbn [selected_cols]. destruct (Py.In_dict k priority_map) eqn:E.
  - destruct (In_dict_get _ _ E) as [c Hc]. rewrite Hc, IH. cbn.
    now exists (c :: cols).
  - now exists cols.
Qed.

(** C7. Names outside the five known flags change nothing: the weights,
    the score column of any frame and the selected columns are those of
    the selection restricted to the known flags, and building the
    selected columns never fails. *)
Theorem unknown_priorities_ignored (P : list string) :
  compute_weights P = compute_weights (known_only P) /\
  (forall d, Score_expr d (compute_weights P)
             = Score_expr d (compute_weights (known_only P))) /\
  selected_cols P = selected_cols (known_only P) /\
  exists cols, selected_cols P = Some cols.
Proof.
  rewrite compute_weights_known_only, selected_cols_known_only.
  repeat split. apply selected_cols_total.
Qed.

(** ** Column arithmetic, cell by cell (claim C1) *)

Lemma cell_astype_float (s : Pd.Series) (i : nat) :
  nth_error (Pd.astype_float s) i = option_map Pd.as_float (Pd.cell s i).
Proof.
  destruct s as [l | l]; cbn.
  - rewrite nth_error_map. now destruct (nth_error l i).
  - now destruct (nth_error l i).
Qed.

Lemma size_astype_float (s : Pd.Series) :
  length (Pd.astype_float s) = Pd.size s.
Proof. destruct s as [l | l]; cbn; [apply length_map | reflexivity]. Qed.

Lemma cell_mul_scalar (s : Pd.Series) (w : num) (i : nat) :
  Pd.cell (Pd.mul_scalar s w) i = option_map (fun v => Pd.mul v w) (Pd.cell s i).
Proof.
  destruct s as [l | l], w as [k | x]; cbn; rewrite ?nth_error_map;
    destruct (nth_error l i); reflexivity.
Qed.

Lemma cell_div_scalar (s : Pd.Series) (w : num) (i : nat) :
  Pd.cell (Pd.div_scalar s w) i = option_map (fun v => Pd.div v w) (Pd.cell s i).
Proof.
  destruct s as [l | l]; cbn; rewrite ?nth_error_map;
    destruct (nth_error l i); reflexivity.
Qed.

Lemma cell_add_series (a b : Pd.Series) (i : nat) :
  Pd.cell (Pd.add_series a b) i =
  match Pd.cell a i, Pd.cell b i with
  | Some x, Some y => Some (Pd.add x y)
  | _, _ => None
  end.
Proof.
  destruct a as [l1 | l1], b as [l2 | l2]; cbn;
    rewrite nth_error_map, nth_error_combine, ?nth_error_map;
    destruct (nth_error l1 i), (nth_error l2 i); reflexivity.
Qed.

Lemma size_mul_scalar (s : Pd.Series) (w : num) :
  Pd.size (Pd.mul_scalar s w) = Pd.size s.
Proof.
  destruct s as [l | l], w as [k | x]; cbn; now rewrite ?length_map.
Qed.

Lemma size_div_scalar (s : Pd.Series) (w : num) :
  Pd.size (Pd.div_scalar s w) = Pd.size s.
Proof. destruct s as [l | l]; cbn; now rewrite ?length_map. Qed.

Lemma size_add_series (a b : Pd.Series) :
  Pd.size (Pd.add_series a b) = Nat.min (Pd.size a) (Pd.size b).
Proof.
  destruct a as [l1 | l1], b as [l2 | l2]; cbn;
    now rewrite length_map, length_combine, ?length_map.
Qed.

(** The columns of a row. *)
Lemma iloc_cells (d : Pd.DataFrame) (i : nat) (r : Pd.Row) :
  Pd.iloc d i = Some r ->
  nth_error (Pd.index d) i = Some (Pd.row_label r) /\
  nth_error (Pd.Country d) i = Some (Pd.row_Country r) /\
  Pd.cell (Pd.EV_Adoption d) i = Some (Pd.row_EV_Adoption r) /\
  Pd.cell (Pd.Tariffs d) i = Some (Pd.row_Tariffs r) /\
  Pd.cell (Pd.Charging_Stations d) i = Some (Pd.row_Charging_Stations r) /\
  Pd.cell (Pd.China_Sentiment d) i = Some (Pd.row_China_Sentiment r) /\
  Pd.cell (Pd.Market_Size d) i = Some (Pd.row_Market_Size r) /\
  match Pd.Score d with
  | None => Pd.row_Score r = None
  | Some s => exists sc, Pd.cell s i = Some sc /\ Pd.row_Score r = Some sc
  end.
Proof.
  unfold Pd.iloc, obind.
  destruct (nth_error (Pd.index d) i); [| discriminate].
  destruct (nth_error (Pd.Country d) i); [| discriminate].
  destruct (Pd.cell (Pd.EV_Adoption d) i); [| discriminate].
  destruct (Pd.cell (Pd.Tariffs d) i); [| discriminate].
  destruct (Pd.cell (Pd.Charging_Stations d) i); [| discriminate].
  destruct (Pd.cell (Pd.China_Sentiment d) i); [| discriminate].
  destruct (Pd.cell (Pd.Market_Size d) i); [| discriminate].
  destruct (Pd.Score d) as [col |].
  - destruct (Pd.cell col i) as [sc |]; [| discriminate].
    intros [= <-]. cbn. repeat split. now exists sc.
  - intros [= <-]. cbn. repeat split.
Qed.

Lemma Score_expr_cells (d : Pd.DataFrame) (w : Py.dict num)
    (w_ev w_ta w_cs w_se w_ms : num) :
  Py.get w "EV Adoption" = Some w_ev ->
  Py.get w "Tariffs" = Some w_ta ->
  Py.get w "Charging_Stations" = Some w_cs ->
  Py.get w "China_Sentiment" = Some w_se ->
  Py.get w "Market_Size" = Some w_ms ->
  exists s,
    Score_expr d w = Some s /\
    Pd.size s = Nat.min (Nat.min (Nat.min (Nat.min
                  (Pd.size (Pd.EV_Adoption d)) (Pd.size (Pd.Tariffs d)))
                  (Pd.size (Pd.Charging_Stations d)))
                  (Pd.size (Pd.China_Sentiment d)))
                  (Pd.size (Pd.Market_Size d)) /\
    forall i r, Pd.iloc d i = Some r ->
      Pd.cell s i = Some (score r w_ev w_ta w_cs w_se w_ms).
Proof.
  intros H1 H2 H3 H4 H5. unfold Score_expr. rewrite H1, H2, H3, H4, H5.
  cbn [obind]. eexists. split; [reflexivity |]. split.
  - now rewrite !size_add_series, !size_mul_scalar, size_div_scalar.
  - intros i r Hr.
    destruct (iloc_cells d i r Hr) as (_ & _ & Ev & Ta & Cs & Se & Ms & _).
    rewrite !cell_add_series, !cell_mul_scalar, cell_div_scalar.
    rewrite Ev, Ta, Cs, Se, Ms. reflexivity.
Qed.

(** C1. The [Score] column the script computes holds, in every row of a
    well-formed frame and for every weight vector, the weighted sum of
    the specification, with the constants 100 (a division) on the
    charging stations and 10 on the sentiment; and the Norway record with
    the priorities EV Adoption and Market Size scores exactly 33.0. *)
Theorem score_formula (d : Pd.DataFrame) (w : Py.dict num)
    (w_ev w_ta w_cs w_se w_ms : num) :
  Pd.wf d ->
  Py.get w "EV Adoption" = Some w_ev ->
  Py.get w "Tariffs" = Some w_ta ->
  Py.get w "Charging_Stations" = Some w_cs ->
  Py.get w "China_Sentiment" = Some w_se ->
  Py.get w "Market_Size" = Some w_ms ->
  (exists s,
      Score_expr d w = Some s /\
      Pd.size s = Pd.len d /\
      forall i r, Pd.iloc d i = Some r ->
        Pd.cell s i = Some (score r w_ev w_ta w_cs w_se w_ms)) /\
  Pd.iloc mock_data 0 = Some norway /\
  compute_weights ["EV Adoption"; "Market Size"]
    = [("EV Adoption", F f_0_4); ("Tariffs", I 0); ("Charging_Stations", I 0);
       ("China_Sentiment", I 0); ("Market_Size", F f_0_2)] /\
  score norway (F f_0_4) (I 0) (I 0) (I 0) (F f_0_2) = F f_33.
Proof.
  intros (_ & Ev & Ta & Cs & Se & Ms & _) H1 H2 H3 H4 H5. split.
  - destruct (Score_expr_cells d w _ _ _ _ _ H1 H2 H3 H4 H5)
      as (s & Hs & Hsize & Hcell).
    exists s. split; [assumption |]. split; [| assumption].
    rewrite Hsize, Ev, Ta, Cs, Se, Ms. now rewrite !Nat.min_id.
  - repeat split; vm_compute; reflexivity.
Qed.

Lemma mock_data_wf : Pd.wf mock_data.
Proof. repeat split. Qed.

Lemma score_formula_witness :
  (exists s,
      Score_expr mock_data (compute_weights all_priorities) = Some s /\
      Pd.size s = Pd.len mock_data /\
      forall i r, Pd.iloc mock_data i = Some r ->
        Pd.cell s i = Some (score r (F f_0_4) (F f_m0_2) (F f_0_2) (F f_0_2) (F f_0_2))) /\
  Pd.iloc mock_data 0 = Some norway /\
  compute_weights ["EV Adoption"; "Market Size"]
    = [("EV Adoption", F f_0_4); ("Tariffs", I 0); ("Charging_Stations", I 0);
       ("China_Sentiment", I 0); ("Market_Size", F f_0_2)] /\
  score norway (F f_0_4) (I 0) (I 0) (I 0) (F f_0_2) = F f_33.
Proof.
  apply (score_formula mock_data (compute_weights all_priorities));
    [exact mock_data_wf | reflexivity ..].
Defined.

(** ** Telemetry feedback (claim C5) *)

Lemma gt_key (x y : F64.t) :
  SFcompare x y = Some Gt -> F64.lt3 (F64.key y) (F64.key x).
Proof.
  destruct x as [sx | sx | | sx mx ex], y as [sy | sy | | sy my ey];
    try (F64Facts.by_cases; fail).
  destruct sx, sy; cbn;
    change (Pos.compare_cont Eq mx my) with (Pos.compare mx my);
    destruct (Z.compare_spec ex ey); destruct (Pos.compare_spec mx my);
    cbn; intros; try discriminate; lia.
Qed.

Lemma lt_key (x y : F64.t) :
  SFcompare x y = Some Lt -> F64.lt3 (F64.key x) (F64.key y).
Proof.
  intros H.
  assert (Nx : F64.is_nan x = false) by (destruct x; try reflexivity; discriminate).
  assert (Ny : F64.is_nan y = false)
    by (destruct y; try reflexivity; destruct x; discriminate).
  apply F64Facts.ltb_key; try assumption.
  unfold F64.ltb, SFltb. now rewrite H.
Qed.

(** A trend above 0.3 is not below 0.1. *)
Lemma gt_0_3_not_lt_0_1 (t : num) :
  Py.gt t (F f_0_3) = true -> Py.lt t (F f_0_1) = false.
Proof.
  unfold Py.gt, Py.lt. destruct t as [z | x]; cbn.
  - destruct (Z.compare_spec (z * 18014398509481984) 5404319552844595);
      try discriminate.
    destruct (Z.compare_spec (z * 72057594037927936) 7205759403792794);
      try reflexivity. lia.
  - destruct (SFcompare x f_0_3) as [[| |] |] eqn:G; try discriminate.
    destruct (SFcompare x f_0_1) as [[| |] |] eqn:L; try reflexivity.
    intros _. apply gt_key in G. apply lt_key in L.
    revert G L. destruct (F64.key x) as [[a b] c]. cbn. lia.
Qed.

(** A trend below -2 is not above 1. *)
Lemma lt_m2_not_gt_1 (t : num) :
  Py.lt t (I (-2)) = true -> Py.gt t (I 1) = false.
Proof.
  unfold Py.gt, Py.lt, Py.compare, Py.cmp_Z_F, option_map.
  destruct t as [z | [s | s | | s m e]]; try discriminate.
  - destruct (Z.compare_spec z (-2)); try discriminate.
    destruct (Z.compare_spec z 1); try reflexivity. lia.
  - destruct s; cbn; intros; try discriminate; reflexivity.
  - assert (P : (0 < 2 ^ (- e))%Z \/ (0 <= e)%Z).
    { destruct (Z.leb_spec 0 e); [now right | left].
      apply Z.pow_pos_nonneg; lia. }
    assert (Q : (0 < 2 ^ e)%Z \/ (e < 0)%Z).
    { destruct (Z.ltb_spec e 0); [now right | left].
      apply Z.pow_pos_nonneg; lia. }
    destruct (Z.leb_spec 0 e);
      repeat match goal with
        | |- context [(?a ?= ?b)%Z] => destruct (Z.compare_spec a b)
        end;
      cbn [CompOpp]; try discriminate; try reflexivity; intros _;
      exfalso; nia.
Qed.

Lemma notes_distinct :
  note_momentum <> note_underwhelming /\
  note_momentum <> note_stable /\
  note_underwhelming <> note_stable.
Proof. repeat split; discriminate. Qed.

(** The shape of the [if]/[elif]/[else] once the two tests are
    exclusive. *)
Lemma note_cases (g l : bool) :
  (g = true -> l = false) ->
  let n := if g then note_momentum
           else if l then note_underwhelming else note_stable in
  (n = note_momentum <-> g = true) /\
  (n = note_underwhelming <-> l = true) /\
  (n = note_stable <-> g = false /\ l = false).
Proof.
  destruct notes_distinct as (MU & MS & US).
  intros X. destruct g, l; cbn; try (specialize (X eq_refl); discriminate);
    repeat split; intros; try reflexivity; try congruence;
    try (exfalso; congruence); try tauto.
  all: try (destruct H; discriminate).
Qed.

Lemma note_higher (metric : string) (t : num) :
  In metric higher_is_better ->
  note metric t =
    if Py.gt t (F f_0_3) then note_momentum
    else if Py.lt t (F f_0_1) then note_underwhelming else note_stable.
Proof.
  intros H. apply In_list_In in H. unfold note. rewrite H.
  assert (E : String.eqb metric "CPI" = false).
  { apply In_list_In in H. cbn in H.
    destruct H as [<- | [<- | [<- | [<- | []]]]]; reflexivity. }
  rewrite E. cbn [andb orb]. now rewrite !orb_false_r.
Qed.

Lemma note_CPI (t : num) :
  note "CPI" t =
    if Py.lt t (I (-2)) then note_momentum
    else if Py.gt t (I 1) then note_underwhelming else note_stable.
Proof. reflexivity. Qed.

Lemma last_two {A : Type} (l : list A) (a b : A) :
  Py.last1 (l ++ [b; a]) = Some a /\ Py.last2 (l ++ [b; a]) = Some b.
Proof. unfold Py.last1, Py.last2. rewrite rev_app_distr. now cbn. Qed.

(** C5. For every metric and trend the note is chosen by the table of
    the specification: for CTR, Retention, Media_Sentiment and Engagement
    it is the momentum note iff trend > 0.3, the underwhelming note iff
    trend < 0.1, and the stable note otherwise; for CPI it is the momentum
    note iff trend < -2, the underwhelming note iff trend > 1, and the
    stable note otherwise.  The trend of a region is the last observation
    minus the one before it.  UK's CPI series [25,24,23,22] has trend -1
    and is stable; Norway's CTR series [1.2,1.5,1.8,2.2] gives
    momentum. *)
Theorem feedback_rule (metric : string) (t : num) :
  (In metric higher_is_better ->
     (note metric t = note_momentum <-> Py.gt t (F f_0_3) = true) /\
     (note metric t = note_underwhelming <-> Py.lt t (F f_0_1) = true) /\
     (note metric t = note_stable <->
        Py.gt t (F f_0_3) = false /\ Py.lt t (F f_0_1) = false)) /\
  (metric = "CPI" ->
     (note metric t = note_momentum <-> Py.lt t (I (-2)) = true) /\
     (note metric t = note_underwhelming <-> Py.gt t (I 1) = true) /\
     (note metric t = note_stable <->
        Py.lt t (I (-2)) = false /\ Py.gt t (I 1) = false)) /\
  (forall stats series a b,
     Py.get stats metric = Some (series ++ [b; a]) ->
     trend stats metric = Py.sub a b /\
     feedback stats metric = option_map (note metric) (Py.sub a b)) /\
  (exists stats,
     Py.get telemetry "UK" = Some stats /\
     Py.get stats "CPI" = Some [I 25; I 24; I 23; I 22] /\
     trend stats "CPI" = Some (I (-1)) /\
     feedback stats "CPI" = Some note_stable) /\
  (exists stats,
     Py.get telemetry "Norway" = Some stats /\
     Py.get stats "CTR"
       = Some (map (fun x => F (F64.lit x)) [1.2; 1.5; 1.8; 2.2]%float) /\
     feedback stats "CTR" = Some note_momentum).
Proof.
  split; [| split; [| split; [| split]]].
  - intros H. rewrite (note_higher metric t H).
    apply note_cases, gt_0_3_not_lt_0_1.
  - intros ->. rewrite note_CPI. apply note_cases, lt_m2_not_gt_1.
  - intros stats series a b H. unfold feedback, trend. rewrite H.
    cbn [obind]. destruct (last_two series a b) as [E1 E2].
    rewrite E1, E2. cbn [obind].
    split; [reflexivity |]. now destruct (Py.sub a b).
  - eexists. split; [reflexivity |]. vm_compute. repeat split.
  - eexists. split; [reflexivity |]. vm_compute. repeat split.
Qed.

(** ** Sorting (claim C3) *)

Section SortFacts.
Context {K : Type}.
Variable ltb : K -> K -> bool.

Lemma insert_desc_perm (x : nat * K) (l : list (nat * K)) :
  Permutation (Pd.insert_desc ltb x l) (x :: l).
Proof.
  induction l as [| y l IH]; cbn; [reflexivity |].
  destruct (ltb (snd x) (snd y)); [| reflexivity].
  rewrite IH. apply perm_swap.
Qed.

Lemma sort_desc_perm (l : list (nat * K)) :
  Permutation (Pd.sort_desc ltb l) l.
Proof.
  induction l as [| x l IH]; cbn; [reflexivity |].
  rewrite insert_desc_perm. now constructor.
Qed.
End SortFacts.

Lemma StronglySorted_nth {A : Type} (R : A -> A -> Prop) (l : list A) :
  StronglySorted R l ->
  forall i j a b, i < j ->
    nth_error l i = Some a -> nth_error l j = Some b -> R a b.
Proof.
  induction 1 as [| x l Hs IH Hx]; intros i j a b Hij Ha Hb.
  - destruct i; discriminate.
  - destruct j as [| j]; [lia |]. cbn in Hb.
    destruct i as [| i]; cbn in Ha.
    + injection Ha as <-. rewrite Forall_forall in Hx.
      apply Hx. eapply nth_error_In; eassumption.
    + apply (IH i j); [lia | assumption ..].
Qed.

Lemma StronglySorted_app {A : Type} (R : A -> A -> Prop) (l1 l2 : list A) :
  StronglySorted R l1 -> StronglySorted R l2 ->
  (forall a b, In a l1 -> In b l2 -> R a b) ->
  StronglySorted R (l1 ++ l2).
Proof.
  induction 1 as [| x l Hs IH Hx]; intros H2 Hc; cbn; [assumption |].
  constructor.
  - apply IH; [assumption |]. intros a b Ha Hb. apply Hc; [now right | assumption].
  - rewrite Forall_forall in *. intros b Hb.
    apply in_app_or in Hb as [Hb | Hb]; [now apply Hx |].
    apply Hc; [now left | assumption].
Qed.

Lemma StronglySorted_filter {A : Type} (R : A -> A -> Prop) (f : A -> bool)
    (l : list A) :
  StronglySorted R l -> StronglySorted R (filter f l).
Proof.
  induction 1 as [| x l Hs IH Hx]; cbn; [constructor |].
  destruct (f x); [| assumption]. constructor; [assumption |].
  rewrite Forall_forall in *. intros b Hb. apply filter_In in Hb. now apply Hx.
Qed.

Lemma StronglySorted_all {A : Type} (R : A -> A -> Prop) (l : list A) :
  (forall a b, In a l -> In b l -> R a b) -> StronglySorted R l.
Proof.
  induction l as [| x l IH]; intros H; constructor.
  - apply IH. intros a b Ha Hb. apply H; now right.
  - rewrite Forall_forall. intros b Hb. apply H; [now left | now right].
Qed.

Lemma filter_partition_perm {A : Type} (f : A -> bool) (l : list A) :
  Permutation (filter (fun x => negb (f x)) l ++ filter f l) l.
Proof.
  induction l as [| x l IH]; cbn; [reflexivity |].
  destruct (f x); cbn.
  - rewrite <- Permutation_middle. now constructor.
  - now constructor.
Qed.

(** *** Positions and cells *)

Lemma enumerate_from_spec {K : Type} (l : list K) (a i : nat) :
  nth_error (combine (seq a (length l)) l) i
  = option_map (fun k => (a + i, k)) (nth_error l i).
Proof.
  rewrite nth_error_combine, nth_error_seq.
  destruct (nth_error l i) as [k |] eqn:E.
  - assert (i < length l) by (apply nth_error_Some; congruence).
    destruct (Nat.ltb_spec i (length l)); [reflexivity | lia].
  - now destruct (Nat.ltb i (length l)).
Qed.

Lemma enumerate_nth {K : Type} (l : list K) (i : nat) :
  nth_error (Pd.enumerate l) i = option_map (fun k => (i, k)) (nth_error l i).
Proof. unfold Pd.enumerate. now rewrite enumerate_from_spec. Qed.

Lemma enumerate_In {K : Type} (l : list K) (p : nat) (k : K) :
  In (p, k) (Pd.enumerate l) <-> nth_error l p = Some k.
Proof.
  split.
  - intros H. apply In_nth_error in H as [i Hi].
    rewrite enumerate_nth in Hi.
    destruct (nth_error l i) eqn:E; [| discriminate].
    cbn in Hi. now injection Hi as <- <-.
  - intros H. apply (nth_error_In _ p). rewrite enumerate_nth, H. reflexivity.
Qed.

Lemma enumerate_fst {K : Type} (l : list K) :
  map fst (Pd.enumerate l) = seq 0 (length l).
Proof.
  apply nth_error_ext. intros i.
  rewrite nth_error_map, enumerate_nth, nth_error_seq.
  destruct (Nat.ltb_spec i (length l)) as [Hi | Hi].
  - apply nth_error_Some in Hi.
    destruct (nth_error l i); [reflexivity | congruence].
  - apply nth_error_None in Hi. now rewrite Hi.
Qed.

Lemma enumerate_sorted {K : Type} (l : list K) :
  StronglySorted position_lt (Pd.enumerate l).
Proof.
  unfold Pd.enumerate. generalize 0 as a.
  induction l as [| k l IH]; intros a; cbn; constructor.
  - apply IH.
  - rewrite Forall_forall. intros [p k'] Hp.
    apply in_combine_l in Hp. apply in_seq in Hp. unfold position_lt. cbn. lia.
Qed.

(** *** The insertion sort is descending and stable *)

Lemma insert_desc_sorted (x : nat * F64.t) (l : list (nat * F64.t)) :
  not_nan x -> Forall not_nan l -> Forall (position_lt x) l ->
  StronglySorted ranked_before l ->
  StronglySorted ranked_before (Pd.insert_desc F64.ltb x l).
Proof.
  intros Nx Nl Px Hs. induction Hs as [| y l Hs IH Hy]; cbn.
  - repeat constructor.
  - inversion Nl as [| ? ? Ny Nl']; subst.
    inversion Px as [| ? ? Pxy Px']; subst.
    destruct (F64.ltb (snd x) (snd y)) eqn:E.
    + constructor; [now apply IH |].
      rewrite Forall_forall in *. intros z Hz.
      apply (Permutation_in _ (insert_desc_perm F64.ltb x l)) in Hz.
      destruct Hz as [<- | Hz]; [| now apply Hy].
      split; [now apply F64Facts.ltb_asym |].
      intros Q. apply F64Facts.eqb_ltb in Q. destruct Q; congruence.
    + constructor; [now constructor |].
      constructor; [split; [assumption | intros _; exact Pxy] |].
      rewrite Forall_forall in *. intros z Hz. split.
      * destruct (Hy z Hz) as [Hyz _].
        apply (F64Facts.ltb_false_trans _ (snd y)); try assumption.
        now apply Nl'.
      * intros _. now apply Px'.
Qed.

Lemma sort_desc_sorted (l : list (nat * F64.t)) :
  Forall not_nan l -> StronglySorted position_lt l ->
  StronglySorted ranked_before (Pd.sort_desc F64.ltb l).
Proof.
  intros Nl Hs. induction Hs as [| x l Hs IH Hx]; cbn; [constructor |].
  inversion Nl as [| ? ? Nx Nl']; subst.
  apply insert_desc_sorted; try assumption.
  - rewrite Forall_forall in *. intros z Hz. apply Nl'.
    now apply (Permutation_in _ (sort_desc_perm F64.ltb l)).
  - rewrite Forall_forall in *. intros z Hz. apply Hx.
    now apply (Permutation_in _ (sort_desc_perm F64.ltb l)).
  - now apply IH.
Qed.

Lemma ranked_before_nan (a b : nat * F64.t) :
  F64.is_nan (snd b) = true -> ranked_before a b.
Proof.
  intros H. split; [now apply F64Facts.ltb_nan_r |].
  rewrite F64Facts.eqb_nan_r by assumption. discriminate.
Qed.

Lemma sorted_cells_sorted (l : list F64.t) :
  StronglySorted ranked_before (sorted_cells l).
Proof.
  unfold sorted_cells. apply StronglySorted_app.
  - apply sort_desc_sorted.
    + rewrite Forall_forall. intros a Ha. apply filter_In in Ha as [_ Ha].
      unfold not_nan. now destruct (F64.is_nan (snd a)).
    + apply StronglySorted_filter, enumerate_sorted.
  - apply StronglySorted_all. intros a b _ Hb.
    apply filter_In in Hb as [_ Hb]. now apply ranked_before_nan.
  - intros a b _ Hb.
    apply filter_In in Hb as [_ Hb]. now apply ranked_before_nan.
Qed.

Lemma sorted_cells_perm (l : list F64.t) :
  Permutation (sorted_cells l) (Pd.enumerate l).
Proof.
  unfold sorted_cells. rewrite sort_desc_perm.
  apply (filter_partition_perm (fun p => F64.is_nan (snd p))).
Qed.

Lemma argsort_desc_float (l : list F64.t) :
  Pd.argsort_desc (Pd.Float64 l) = map fst (sorted_cells l).
Proof. unfold sorted_cells. cbn. now rewrite map_app. Qed.

Lemma argsort_desc_perm (s : Pd.Series) :
  Permutation (Pd.argsort_desc s) (seq 0 (Pd.size s)).
Proof.
  destruct s as [l | l].
  - cbn. rewrite <- enumerate_fst. apply Permutation_map, sort_desc_perm.
  - rewrite argsort_desc_float. cbn [Pd.size]. rewrite <- enumerate_fst.
    apply Permutation_map, sorted_cells_perm.
Qed.

Lemma sorted_cells_nth (l : list F64.t) (i p : nat) (x : F64.t) :
  nth_error (Pd.argsort_desc (Pd.Float64 l)) i = Some p ->
  nth_error l p = Some x ->
  nth_error (sorted_cells l) i = Some (p, x).
Proof.
  rewrite argsort_desc_float, nth_error_map. intros Hi Hp.
  destruct (nth_error (sorted_cells l) i) as [[p' x'] |] eqn:E; [| discriminate].
  cbn in Hi. injection Hi as ->.
  apply nth_error_In in E as Hin.
  apply (Permutation_in _ (sorted_cells_perm l)) in Hin.
  apply enumerate_In in Hin. congruence.
Qed.

(** The order of the positions [argsort_desc] returns: a cell that is
    strictly greater comes earlier, and of two equal cells the one that
    was first in the input comes earlier. *)
Lemma argsort_desc_stable (l : list F64.t) (i j p q : nat) (x y : F64.t) :
  nth_error (Pd.argsort_desc (Pd.Float64 l)) i = Some p ->
  nth_error (Pd.argsort_desc (Pd.Float64 l)) j = Some q ->
  nth_error l p = Some x -> nth_error l q = Some y ->
  (F64.ltb y x = true -> i < j) /\
  (F64.eqb x y = true -> p < q -> i < j).
Proof.
  intros Hi Hj Hp Hq.
  pose proof (sorted_cells_nth l i p x Hi Hp) as Li.
  pose proof (sorted_cells_nth l j q y Hj Hq) as Lj.
  pose proof (StronglySorted_nth _ _ (sorted_cells_sorted l)) as S.
  split.
  - intros Hlt. destruct (Nat.lt_trichotomy i j) as [H | [-> | H]];
      [assumption | |].
    + rewrite Li in Lj. injection Lj as <- <-.
      pose proof (F64Facts.ltb_asym _ _ Hlt). congruence.
    + destruct (S j i _ _ H Lj Li) as [C _]. cbn in C. congruence.
  - intros Heq Hpq. destruct (Nat.lt_trichotomy i j) as [H | [-> | H]];
      [assumption | |].
    + rewrite Li in Lj. injection Lj as <- <-. lia.
    + destruct (S j i _ _ H Lj Li) as [_ C]. cbn in C.
      destruct (F64Facts.eqb_not_nan _ _ Heq) as [Nx Ny].
      assert (F64.eqb y x = true).
      { apply F64Facts.eqb_key; try assumption.
        symmetry. now apply F64Facts.eqb_key. }
      specialize (C H0). lia.
Qed.

(** *** Positional selection *)

Lemma take_nth {A : Type} (ix : list nat) (l r : list A) :
  Pd.take ix l = Some r ->
  forall i, nth_error r i = (p <- nth_error ix i ;; nth_error l p).
Proof.
  revert r. induction ix as [| p ix IH]; cbn; intros r H i.
  - injection H as <-. now destruct i.
  - destruct (nth_error l p) as [x |] eqn:E; [| discriminate]. cbn in H.
    destruct (Pd.take ix l) as [r' |]; [| discriminate]. cbn in H.
    injection H as <-. destruct i as [| i]; cbn; [now rewrite E |].
    now apply IH.
Qed.

Lemma take_length {A : Type} (ix : list nat) (l r : list A) :
  Pd.take ix l = Some r -> length r = length ix.
Proof.
  revert r. induction ix as [| p ix IH]; cbn; intros r H.
  - now injection H as <-.
  - destruct (nth_error l p) as [x |]; [| discriminate]. cbn in H.
    destruct (Pd.take ix l) as [r' |]; [| discriminate]. cbn in H.
    injection H as <-. cbn. f_equal. now apply IH.
Qed.

Lemma take_total {A : Type} (ix : list nat) (l : list A) :
  Forall (fun p => p < length l) ix -> exists r, Pd.take ix l = Some r.
Proof.
  induction 1 as [| p ix Hp _ [r IH]]; cbn; [now exists [] |].
  apply nth_error_Some in Hp.
  destruct (nth_error l p) as [x |]; [| congruence].
  rewrite IH. cbn. now exists (x :: r).
Qed.

Lemma take_series_cell (ix : list nat) (s s' : Pd.Series) :
  Pd.take_series ix s = Some s' ->
  Pd.size s' = length ix /\
  forall i, Pd.cell s' i = (p <- nth_error ix i ;; Pd.cell s p).
Proof.
  destruct s as [l | l]; cbn;
    destruct (Pd.take ix l) as [r |] eqn:E; try discriminate;
    intros [= <-]; cbn; (split; [now apply (take_length ix l) |]);
    intros i; rewrite (take_nth ix l r E i);
    now destruct (nth_error ix i).
Qed.

Lemma take_series_total (ix : list nat) (s : Pd.Series) :
  Forall (fun p => p < Pd.size s) ix -> exists s', Pd.take_series ix s = Some s'.
Proof.
  destruct s as [l | l]; cbn; intros H;
    destruct (take_total ix l H) as [r ->]; cbn; eauto.
Qed.

Ltac take_cases H :=
  repeat match type of H with
    | obind ?m _ = Some _ =>
        let E := fresh "E" in
        destruct m eqn:E; [cbn [obind] in H | discriminate H]
    end.

Lemma take_frame_iloc (ix : list nat) (d d' : Pd.DataFrame) :
  Pd.take_frame ix d = Some d' ->
  Pd.len d' = length ix /\
  forall i, Pd.iloc d' i = (p <- nth_error ix i ;; Pd.iloc d p).
Proof.
  unfold Pd.take_frame. intros H. take_cases H.
  assert (X : forall s s', Pd.take_series ix s = Some s' ->
             forall i, Pd.cell s' i = (p <- nth_error ix i ;; Pd.cell s p))
    by (intros ? ? Q; apply (take_series_cell _ _ _ Q)).
  unfold Pd.iloc, Pd.len.
  destruct (Pd.Score d) as [sc |].
  - take_cases H. injection H as <-. cbn.
    split; [eapply take_length; eassumption |]. intros i.
    rewrite (take_nth _ _ _ E i), (take_nth _ _ _ E0 i),
      (X _ _ E1 i), (X _ _ E2 i), (X _ _ E3 i), (X _ _ E4 i), (X _ _ E5 i),
      (X _ _ E6 i).
    now destruct (nth_error ix i).
  - injection H as <-. cbn.
    split; [eapply take_length; eassumption |]. intros i.
    rewrite (take_nth _ _ _ E i), (take_nth _ _ _ E0 i),
      (X _ _ E1 i), (X _ _ E2 i), (X _ _ E3 i), (X _ _ E4 i), (X _ _ E5 i).
    now destruct (nth_error ix i).
Qed.

Lemma take_frame_total (ix : list nat) (d : Pd.DataFrame) :
  Pd.wf d -> Forall (fun p => p < Pd.len d) ix ->
  exists d', Pd.take_frame ix d = Some d' /\ Pd.wf d'.
Proof.
  intros (C & Ev & Ta & Cs & Se & Ms & Sc) H. unfold Pd.take_frame.
  destruct (take_total ix (Pd.index d) H) as [i' Ei].
  rewrite <- C in H. destruct (take_total ix (Pd.Country d) H) as [c' Ec].
  rewrite C, <- Ev in H. destruct (take_series_total ix _ H) as [ev Eev].
  rewrite Ev, <- Ta in H. destruct (take_series_total ix _ H) as [ta Eta].
  rewrite Ta, <- Cs in H. destruct (take_series_total ix _ H) as [cs Ecs].
  rewrite Cs, <- Se in H. destruct (take_series_total ix _ H) as [se Ese].
  rewrite Se, <- Ms in H. destruct (take_series_total ix _ H) as [ms Ems].
  rewrite Ms in H.
  rewrite Ei, Ec, Eev, Eta, Ecs, Ese, Ems. cbn [obind].
  pose proof (take_length _ _ _ Ei) as Li.
  pose proof (take_length _ _ _ Ec) as Lc.
  destruct (take_series_cell _ _ _ Eev) as [Lev _].
  destruct (take_series_cell _ _ _ Eta) as [Lta _].
  destruct (take_series_cell _ _ _ Ecs) as [Lcs _].
  destruct (take_series_cell _ _ _ Ese) as [Lse _].
  destruct (take_series_cell _ _ _ Ems) as [Lms _].
  destruct (Pd.Score d) as [sc |].
  - rewrite <- Sc in H. destruct (take_series_total ix _ H) as [sc' Esc].
    rewrite Esc. cbn [obind]. eexists. split; [reflexivity |].
    destruct (take_series_cell _ _ _ Esc) as [Lsc _].
    unfold Pd.wf, Pd.len. cbn. repeat split; congruence.
  - eexists. split; [reflexivity |].
    unfold Pd.wf, Pd.len. cbn. repeat split; congruence.
Qed.

(** *** The score column is a float column *)

Lemma add_series_float_r (a : Pd.Series) (l : list F64.t) :
  exists l', Pd.add_series a (Pd.Float64 l) = Pd.Float64 l'.
Proof. destruct a; cbn; eauto. Qed.

Lemma add_series_float_l (l : list F64.t) (b : Pd.Series) :
  exists l', Pd.add_series (Pd.Float64 l) b = Pd.Float64 l'.
Proof. destruct b; cbn; eauto. Qed.

Lemma mul_scalar_float (l : list F64.t) (w : num) :
  exists l', Pd.mul_scalar (Pd.Float64 l) w = Pd.Float64 l'.
Proof. destruct w; cbn; eauto. Qed.

Lemma Score_expr_float (d : Pd.DataFrame) (w : Py.dict num) (s : Pd.Series) :
  Score_expr d w = Some s -> exists l, s = Pd.Float64 l.
Proof.
  unfold Score_expr. intros H. take_cases H. injection H as <-.
  unfold Pd.div_scalar.
  repeat match goal with
    | |- context [Pd.mul_scalar (Pd.Float64 ?l) ?w] =>
        destruct (mul_scalar_float l w) as [? ->]
    | |- context [Pd.add_series ?a (Pd.Float64 ?l)] =>
        destruct (add_series_float_r a l) as [? ->]
    | |- context [Pd.add_series (Pd.Float64 ?l) ?b] =>
        destruct (add_series_float_l l b) as [? ->]
    end.
  eauto.
Qed.

(** *** Rows of a well-formed frame *)

Lemma cell_Some (s : Pd.Series) (i : nat) :
  i < Pd.size s -> exists x, Pd.cell s i = Some x.
Proof.
  destruct s as [l | l]; cbn; intros H; apply nth_error_Some in H;
    destruct (nth_error l i); try congruence; cbn; eauto.
Qed.

Lemma iloc_Some (d : Pd.DataFrame) (i : nat) :
  Pd.wf d -> i < Pd.len d -> exists r, Pd.iloc d i = Some r.
Proof.
  intros (C & Ev & Ta & Cs & Se & Ms & Sc) H. unfold Pd.iloc.
  assert (Hi := H). apply nth_error_Some in Hi.
  destruct (nth_error (Pd.index d) i); [| congruence]. cbn [obind].
  assert (Hc := H). rewrite <- C in Hc. apply nth_error_Some in Hc.
  destruct (nth_error (Pd.Country d) i); [| congruence]. cbn [obind].
  destruct (cell_Some (Pd.EV_Adoption d) i) as [? ->]; [lia |].
  destruct (cell_Some (Pd.Tariffs d) i) as [? ->]; [lia |].
  destruct (cell_Some (Pd.Charging_Stations d) i) as [? ->]; [lia |].
  destruct (cell_Some (Pd.China_Sentiment d) i) as [? ->]; [lia |].
  destruct (cell_Some (Pd.Market_Size d) i) as [? ->]; [lia |].
  cbn [obind]. destruct (Pd.Score d) as [sc |]; [| eauto].
  destruct (cell_Some sc i) as [? ->]; [lia |]. cbn [obind]. eauto.
Qed.

Lemma iloc_None (d : Pd.DataFrame) (i : nat) :
  Pd.len d <= i -> Pd.iloc d i = None.
Proof.
  intros H. unfold Pd.iloc. apply nth_error_None in H. now rewrite H.
Qed.

Lemma flat_map_seq_nth {A : Type} (f : nat -> option A) (n a i : nat) :
  (forall k, k < n -> f (a + k) <> None) ->
  nth_error
    (flat_map (fun k => match f k with Some r => [r] | None => [] end) (seq a n)) i
  = if Nat.ltb i n then f (a + i) else None.
Proof.
  revert a i. induction n as [| n IH]; intros a i H; cbn [seq flat_map].
  - now destruct i.
  - pose proof (H 0 ltac:(lia)) as H0. rewrite Nat.add_0_r in H0.
    destruct (f a) as [r |] eqn:E; [| congruence]. cbn [app].
    destruct i as [| i]; cbn [nth_error].
    + now rewrite Nat.add_0_r, E.
    + rewrite IH.
      * replace (S a + i) with (a + S i) by lia.
        change (Nat.ltb (S i) (S n)) with (Nat.ltb i n). reflexivity.
      * intros k Hk. replace (S a + k) with (a + S k) by lia.
        apply H. lia.
Qed.

Lemma rows_nth (d : Pd.DataFrame) (i : nat) :
  Pd.wf d -> nth_error (Pd.rows d) i = Pd.iloc d i.
Proof.
  intros W. unfold Pd.rows, Pd.row_list.
  rewrite (flat_map_seq_nth (Pd.iloc d)).
  - cbn [Nat.add]. destruct (Nat.ltb_spec i (Pd.len d)); [reflexivity |].
    symmetry. now apply iloc_None.
  - intros k Hk. cbn [Nat.add]. destruct (iloc_Some d k W Hk) as [r ->].
    discriminate.
Qed.

Lemma rows_length (d : Pd.DataFrame) : Pd.wf d -> length (Pd.rows d) = Pd.len d.
Proof.
  intros W.
  destruct (Nat.lt_trichotomy (length (Pd.rows d)) (Pd.len d)) as [H | [H | H]];
    [| assumption |].
  - destruct (iloc_Some d _ W H) as [r Hr]. rewrite <- rows_nth in Hr by assumption.
    assert (nth_error (Pd.rows d) (length (Pd.rows d)) = None)
      by now apply nth_error_None.
    congruence.
  - assert (X : nth_error (Pd.rows d) (Pd.len d) <> None)
      by now apply nth_error_Some.
    rewrite rows_nth, iloc_None in X by (assumption || lia). congruence.
Qed.

Lemma flat_map_positions {A : Type} (f g : nat -> list A) (ix : list nat) (a : nat) :
  (forall i p, nth_error ix i = Some p -> f (a + i) = g p) ->
  flat_map f (seq a (length ix)) = flat_map g ix.
Proof.
  revert a. induction ix as [| p ix IH]; intros a H; cbn; [reflexivity |].
  rewrite <- (H 0 p eq_refl), Nat.add_0_r. f_equal.
  apply IH. intros i q Hq. replace (S a + i) with (a + S i) by lia.
  now apply H.
Qed.

(** *** Ranking a frame *)

Lemma set_Score_wf (d : Pd.DataFrame) (s : Pd.Series) :
  Pd.wf d -> Pd.size s = Pd.len d -> Pd.wf (Pd.set_Score d s).
Proof.
  intros (C & Ev & Ta & Cs & Se & Ms & _) H.
  unfold Pd.wf, Pd.len in *. cbn. repeat split; assumption.
Qed.

Lemma Score_expr_size (d : Pd.DataFrame) (w : Py.dict num) (s : Pd.Series) :
  Pd.wf d -> Score_expr d w = Some s -> Pd.size s = Pd.len d.
Proof.
  intros (_ & Ev & Ta & Cs & Se & Ms & _) H. pose proof H as H'.
  unfold Score_expr in H'. take_cases H'. clear H'.
  destruct (Score_expr_cells d w _ _ _ _ _ E E0 E1 E2 E3) as (s' & Hs & Hsize & _).
  assert (s' = s) by congruence. subst s'.
  rewrite Hsize, Ev, Ta, Cs, Se, Ms. now rewrite !Nat.min_id.
Qed.

Lemma argsort_desc_bound (s : Pd.Series) :
  Forall (fun p => p < Pd.size s) (Pd.argsort_desc s).
Proof.
  rewrite Forall_forall. intros p Hp.
  apply (Permutation_in _ (argsort_desc_perm s)) in Hp.
  apply in_seq in Hp. lia.
Qed.

(** What [rank] returns on a well-formed frame. *)
Lemma rank_spec (d : Pd.DataFrame) (w : Py.dict num) (s : Pd.Series) :
  Pd.wf d -> Score_expr d w = Some s ->
  exists ranked,
    rank d w = Some ranked /\
    Pd.wf ranked /\
    Pd.len ranked = Pd.len d /\
    forall i, Pd.iloc ranked i
              = (p <- nth_error (Pd.argsort_desc s) i ;;
                 Pd.iloc (Pd.set_Score d s) p).
Proof.
  intros W H. pose proof (Score_expr_size d w s W H) as Hsize.
  pose proof (set_Score_wf d s W Hsize) as W'.
  pose proof (argsort_desc_bound s) as B. rewrite Hsize in B.
  destruct (take_frame_total (Pd.argsort_desc s) (Pd.set_Score d s) W' B)
    as (ranked & Hr & Wr).
  destruct (take_frame_iloc _ _ _ Hr) as [Hlen Hiloc].
  exists ranked. split; [| split; [assumption | split; [| assumption]]].
  - unfold rank. rewrite H. exact Hr.
  - rewrite Hlen, (Permutation_length (argsort_desc_perm s)), length_seq.
    exact Hsize.
Qed.

Lemma rank_rows_perm (d ranked : Pd.DataFrame) (ix : list nat) :
  Pd.len ranked = length ix ->
  Permutation ix (seq 0 (Pd.len d)) ->
  (forall i, Pd.iloc ranked i = (p <- nth_error ix i ;; Pd.iloc d p)) ->
  Permutation (Pd.rows ranked) (Pd.rows d).
Proof.
  intros Hlen Hperm Hiloc. unfold Pd.rows. rewrite Hlen.
  rewrite (flat_map_positions (Pd.row_list ranked) (Pd.row_list d) ix 0).
  - now rewrite Hperm.
  - intros i p Hp. cbn [Nat.add]. unfold Pd.row_list.
    now rewrite Hiloc, Hp.
Qed.

(** C3. [rank] orders the scored records by [Score], descending and
    stable: its output is a rearrangement of the scored records; a
    record whose score is strictly greater than another's comes before
    it; and two records with equal scores keep the order they had in the
    input.  ([ix] gives, for each output position, the input position of
    the record found there.) *)
Theorem rank_stable_descending (d : Pd.DataFrame) (w : Py.dict num)
    (s : Pd.Series) :
  Pd.wf d -> Score_expr d w = Some s ->
  exists (l : list F64.t) (ranked : Pd.DataFrame) (ix : list nat),
    s = Pd.Float64 l /\
    rank d w = Some ranked /\
    Permutation ix (seq 0 (Pd.len d)) /\
    (forall i, Pd.iloc ranked i
               = (p <- nth_error ix i ;; Pd.iloc (Pd.set_Score d s) p)) /\
    Permutation (Pd.rows ranked) (Pd.rows (Pd.set_Score d s)) /\
    forall i j p q x y,
      nth_error ix i = Some p -> nth_error ix j = Some q ->
      nth_error l p = Some x -> nth_error l q = Some y ->
      (F64.ltb y x = true -> i < j) /\
      (F64.eqb x y = true -> p < q -> i < j).
Proof.
  intros W H.
  destruct (Score_expr_float d w s H) as [l ->].
  destruct (rank_spec d w _ W H) as (ranked & Hr & Wr & Hlen & Hiloc).
  pose proof (Score_expr_size d w _ W H) as Hsize.
  pose proof (argsort_desc_perm (Pd.Float64 l)) as Hperm.
  rewrite Hsize in Hperm.
  exists l, ranked, (Pd.argsort_desc (Pd.Float64 l)).
  repeat match goal with |- _ /\ _ => split end;
    try assumption; try reflexivity.
  - apply (rank_rows_perm _ _ (Pd.argsort_desc (Pd.Float64 l)));
      try assumption.
    now rewrite Hlen, (Permutation_length Hperm), length_seq.
  - intros i j p q x y. apply argsort_desc_stable.
Qed.

(** The ranking by market size: the score column, the ranked frame, and
    the input position of each ranked row.  India (2.0) comes first and
    Norway (1.0) last, although Norway is the first row of the input and
    scores strictly less than India; Australia, Mexico and Thailand tie
    and keep their input order 2, 4, 7. *)
Lemma market_size_ranking :
  Score_expr mock_data (compute_weights ["Market Size"])
    = Some market_size_scores /\
  rank mock_data (compute_weights ["Market Size"]) = Some market_size_ranked /\
  Pd.argsort_desc market_size_scores = [5; 3; 1; 6; 2; 4; 7; 0] /\
  Pd.index market_size_ranked = [5; 3; 1; 6; 2; 4; 7; 0] /\
  Pd.iloc market_size_ranked 0 = Some market_size_first /\
  Pd.iloc market_size_ranked 7 = Some market_size_last /\
  exists l x0 x2 x4 x5,
    market_size_scores = Pd.Float64 l /\
    nth_error l 0 = Some x0 /\ nth_error l 2 = Some x2 /\
    nth_error l 4 = Some x4 /\ nth_error l 5 = Some x5 /\
    F64.ltb x0 x5 = true /\ F64.eqb x2 x4 = true.
Proof.
  repeat match goal with |- _ /\ _ => split end;
    try (vm_compute; reflexivity).
  do 5 eexists. repeat split; vm_compute; reflexivity.
Qed.

Lemma rank_stable_descending_witness :
  Pd.wf mock_data /\
  Score_expr mock_data (compute_weights ["Market Size"])
    = Some market_size_scores /\
  exists (l : list F64.t) (ranked : Pd.DataFrame) (ix : list nat),
    market_size_scores = Pd.Float64 l /\
    rank mock_data (compute_weights ["Market Size"]) = Some ranked /\
    Permutation ix (seq 0 (Pd.len mock_data)) /\
    (forall i, Pd.iloc ranked i
               = (p <- nth_error ix i ;;
                  Pd.iloc (Pd.set_Score mock_data market_size_scores) p)) /\
    Permutation (Pd.rows ranked)
      (Pd.rows (Pd.set_Score mock_data market_size_scores)) /\
    forall i j p q x y,
      nth_error ix i = Some p -> nth_error ix j = Some q ->
      nth_error l p = Some x -> nth_error l q = Some y ->
      (F64.ltb y x = true -> i < j) /\
      (F64.eqb x y = true -> p < q -> i < j).
Proof.
  split; [exact mock_data_wf |].
  split; [vm_compute; reflexivity |].
  apply (rank_stable_descending mock_data (compute_weights ["Market Size"])
           market_size_scores);
    [exact mock_data_wf | vm_compute; reflexivity].
Defined.

(** ** Truncation (claim C6) *)

Lemma cell_head_series (n : nat) (s : Pd.Series) (i : nat) :
  Pd.cell (Pd.head_series n s) i = if Nat.ltb i n then Pd.cell s i else None.
Proof.
  destruct s as [l | l]; cbn [Pd.cell Pd.head_series];
    rewrite nth_error_firstn; now destruct (Nat.ltb i n).
Qed.

Lemma iloc_head (n : nat) (d : Pd.DataFrame) (i : nat) :
  Pd.iloc (Pd.head n d) i = if Nat.ltb i n then Pd.iloc d i else None.
Proof.
  unfold Pd.iloc, Pd.head.
  cbn [Pd.index Pd.Country Pd.EV_Adoption Pd.Tariffs Pd.Charging_Stations
       Pd.China_Sentiment Pd.Market_Size Pd.Score].
  rewrite !nth_error_firstn, !cell_head_series.
  destruct (Nat.ltb i n) eqn:E; [| reflexivity].
  destruct (Pd.Score d) as [sc |]; cbn; [| reflexivity].
  now rewrite cell_head_series, E.
Qed.

Lemma size_head_series (n : nat) (s : Pd.Series) :
  Pd.size (Pd.head_series n s) = Nat.min n (Pd.size s).
Proof. destruct s as [l | l]; cbn; apply length_firstn. Qed.

Lemma head_wf (n : nat) (d : Pd.DataFrame) :
  Pd.wf d -> n <= Pd.len d -> Pd.wf (Pd.head n d) /\ Pd.len (Pd.head n d) = n.
Proof.
  intros (C & Ev & Ta & Cs & Se & Ms & Sc) H.
  assert (L : Pd.len (Pd.head n d) = n).
  { unfold Pd.len in *. cbn. rewrite length_firstn. lia. }
  split; [| assumption].
  unfold Pd.wf. rewrite L. cbn.
  rewrite length_firstn, !size_head_series.
  repeat split; try lia.
  destruct (Pd.Score d) as [sc |]; cbn; [| trivial].
  rewrite size_head_series. lia.
Qed.

Lemma rows_head (n : nat) (d : Pd.DataFrame) :
  Pd.wf d -> n <= Pd.len d -> Pd.rows (Pd.head n d) = firstn n (Pd.rows d).
Proof.
  intros W H. destruct (head_wf n d W H) as [W' _].
  apply nth_error_ext. intros i.
  rewrite rows_nth, iloc_head, nth_error_firstn, rows_nth by assumption.
  reflexivity.
Qed.

Lemma Score_expr_compute_weights (d : Pd.DataFrame) (P : list string) :
  exists s, Score_expr d (compute_weights P) = Some s.
Proof.
  destruct (Score_expr_cells d (compute_weights P) _ _ _ _ _
              eq_refl eq_refl eq_refl eq_refl eq_refl) as (s & Hs & _).
  now exists s.
Qed.

(** C6. On a well-formed ranked frame and for 3 <= n <= its number of
    records, [top_n] returns exactly the first [n] records in the same
    order; on the 8-row table, whatever the priorities, [top_n ranked 5]
    has exactly 5 records, the first five of the ranking; and for every
    n from 3 to 8 the slider yields n without raising. *)
Theorem top_n_first_n (ranked : Pd.DataFrame) (n : nat) :
  Pd.wf ranked -> 3 <= n <= Pd.len ranked ->
  Pd.rows (top_n ranked n) = firstn n (Pd.rows ranked) /\
  length (Pd.rows (top_n ranked n)) = n /\
  (forall i, i < n -> Pd.iloc (top_n ranked n) i = Pd.iloc ranked i) /\
  (forall P, exists ranked8,
      rank mock_data (compute_weights P) = Some ranked8 /\
      length (Pd.rows (top_n ranked8 5)) = 5 /\
      Pd.rows (top_n ranked8 5) = firstn 5 (Pd.rows ranked8) /\
      forall k h, 3 <= k <= 8 ->
        slider_widget "Show top N markets:" 3 (Pd.len ranked8) 5 k h
        = ([St.slider "Show top N markets:" 3 8 5], h, St.Done k)).
Proof.
  intros W [H3 Hn]. unfold top_n.
  destruct (head_wf n ranked W Hn) as [W' L].
  split; [now apply rows_head |].
  split; [now rewrite rows_length |].
  split.
  - intros i Hi. rewrite iloc_head.
    destruct (Nat.ltb_spec i n); [reflexivity | lia].
  - intros P. destruct (Score_expr_compute_weights mock_data P) as [s Hs].
    destruct (rank_spec mock_data _ s mock_data_wf Hs)
      as (ranked8 & Hr & Wr & Hlen & _).
    change (Pd.len mock_data) with 8 in Hlen.
    exists ranked8. split; [assumption |].
    destruct (head_wf 5 ranked8 Wr ltac:(lia)) as [W5 L5].
    split; [now rewrite rows_length |].
    split; [apply rows_head; [assumption | lia] |].
    intros k h [Hk3 Hk8]. rewrite Hlen. unfold slider_widget. cbn.
    apply Nat.leb_le in Hk8. rewrite Hk8.
    do 3 (destruct k as [| k]; [lia |]). reflexivity.
Qed.

(** ** The store of frames (claim C8) *)

Lemma update_length (h : St.heap) (a : St.addr) (d : Pd.DataFrame) :
  length (St.update h a d) = length h.
Proof.
  revert a. induction h as [| x h IH]; intros [| a]; cbn; try reflexivity.
  now rewrite IH.
Qed.

Lemma update_same (h : St.heap) (a : St.addr) (d : Pd.DataFrame) :
  a < length h -> nth_error (St.update h a d) a = Some d.
Proof.
  revert a. induction h as [| x h IH]; intros [| a]; cbn; try lia;
    try reflexivity.
  intros H. apply IH. lia.
Qed.


(** What lines 49-64 do to the store. *)
Lemma rank_step_run (P : list string) (h : St.heap) (df : St.addr)
    (d : Pd.DataFrame) (s : Pd.Series) (ranked : Pd.DataFrame) :
  nth_error h df = Some d ->
  Score_expr d (compute_weights P) = Some s ->
  rank d (compute_weights P) = Some ranked ->
  rank_step P df h
  = ([], St.update h df (Pd.set_Score d s) ++ [ranked], St.Done (length h)).
Proof.
  intros Hd Hs Hr.
  assert (Hlt : df < length h) by (apply nth_error_Some; congruence).
  unfold rank in Hr. rewrite Hs in Hr. cbn [obind] in Hr.
  unfold rank_step, St.bind, St.read, St.write, St.new. cbv beta zeta.
  rewrite Hd. cbn [St.lift St.ret]. rewrite Hs. cbn [St.lift St.ret].
  rewrite (update_same h df _ Hlt). cbn [St.lift St.ret].
  rewrite Hr. cbn [St.lift St.ret app].
  now rewrite update_length.
Qed.


(** ** The reference table (claims C4 and C10) *)

(** C4. With all five priorities selected, ranking the 8-row table puts
    Norway first, and Norway's score is strictly greater than the score
    of every other country; so every arrangement of the eight rows in
    which no row is followed by one of strictly greater score starts
    with Norway (row 0 of the table). *)
Theorem norway_first_all_priorities :
  exists (ranked : Pd.DataFrame) (top : Pd.Row) (scores : list F64.t)
         (best : F64.t),
    rank mock_data
      (compute_weights
         ["EV Adoption"; "Low Import Tariffs"; "Strong Infrastructure";
          "Positive China Sentiment"; "Market Size"]) = Some ranked /\
    Score_expr mock_data
      (compute_weights
         ["EV Adoption"; "Low Import Tariffs"; "Strong Infrastructure";
          "Positive China Sentiment"; "Market Size"])
      = Some (Pd.Float64 scores) /\
    nth_error scores 0 = Some best /\
    Pd.len ranked = 8 /\
    Pd.iloc ranked 0 = Some top /\
    Pd.row_Country top = "Norway" /\
    Pd.row_Score top = Some (F best) /\
    (forall r, In r (Pd.rows ranked) -> Pd.row_Country r <> "Norway" ->
       exists x, Pd.row_Score r = Some (F x) /\ F64.ltb x best = true) /\
    (forall ix, Permutation ix (seq 0 8) ->
       (forall i j p q x y, i < j ->
          nth_error ix i = Some p -> nth_error ix j = Some q ->
          nth_error scores p = Some x -> nth_error scores q = Some y ->
          F64.ltb x y = false) ->
       nth_error ix 0 = Some 0).
Proof.
  eexists. eexists. eexists. eexists.
  split; [vm_compute; reflexivity |].
  split; [vm_compute; reflexivity |].
  split; [reflexivity |].
  split; [reflexivity |].
  split; [vm_compute; reflexivity |].
  split; [reflexivity |].
  split; [reflexivity |].
  split.
  - intros r Hr Hc. vm_compute in Hr.
    repeat (destruct Hr as [<- | Hr];
            [first [ exfalso; apply Hc; reflexivity
                   | eexists; split; [reflexivity | vm_compute; reflexivity] ] |]).
    destruct Hr.
  - intros ix Hp Hd.
    destruct ix as [| p0 ix']; [apply Permutation_length in Hp; discriminate |].
    assert (H0 : In 0 (p0 :: ix'))
      by (apply (Permutation_in _ (Permutation_sym Hp)), in_seq; lia).
    assert (Hp0 : In p0 (seq 0 8)) by (apply (Permutation_in _ Hp); now left).
    apply in_seq in Hp0.
    destruct H0 as [-> | H0]; [reflexivity |].
    apply In_nth_error in H0 as [j Hj].
    destruct p0 as [| p0]; [reflexivity |].
    do 7 (destruct p0 as [| p0];
          [specialize (Hd 0 (S j) _ 0 _ _ ltac:(lia) eq_refl Hj eq_refl eq_refl);
           vm_compute in Hd; discriminate |]).
    lia.
Qed.

(** C10. With no priority selected every weight is 0, every record of
    the table scores exactly 0, so no record is ranked before another by
    its score: the scores of any two ranked records are equal, the first
    ranked record has the score of every other one, and the ranking is
    the input order, which is what the tie handling leaves. *)
Theorem empty_selection_all_tie :
  compute_weights []
    = [("EV Adoption", I 0); ("Tariffs", I 0); ("Charging_Stations", I 0);
       ("China_Sentiment", I 0); ("Market_Size", I 0)] /\
  Score_expr mock_data (compute_weights [])
    = Some (Pd.Float64 (repeat F64.zero 8)) /\
  exists (ranked : Pd.DataFrame) (top : Pd.Row),
    rank mock_data (compute_weights []) = Some ranked /\
    Pd.len ranked = 8 /\
    Pd.iloc ranked 0 = Some top /\
    (forall r, In r (Pd.rows ranked) ->
       Pd.row_Score r = Some (F F64.zero) /\
       Pd.row_Score r = Pd.row_Score top) /\
    (forall r1 r2 x y, In r1 (Pd.rows ranked) -> In r2 (Pd.rows ranked) ->
       Pd.row_Score r1 = Some (F x) -> Pd.row_Score r2 = Some (F y) ->
       F64.eqb x y = true /\ F64.ltb x y = false) /\
    Pd.Country ranked = Pd.Country mock_data.
Proof.
  split; [reflexivity |].
  split; [vm_compute; reflexivity |].
  eexists. eexists.
  split; [vm_compute; reflexivity |].
  split; [reflexivity |].
  split; [vm_compute; reflexivity |].
  assert (Z : forall r,
             In r (Pd.rows
                     (Pd.mkDataFrame (seq 0 8) (Pd.Country mock_data)
                        (Pd.EV_Adoption mock_data) (Pd.Tariffs mock_data)
                        (Pd.Charging_Stations mock_data)
                        (Pd.China_Sentiment mock_data)
                        (Pd.Market_Size mock_data)
                        (Some (Pd.Float64 (repeat F64.zero 8))))) ->
             Pd.row_Score r = Some (F F64.zero)).
  { intros r Hr. vm_compute in Hr.
    repeat (destruct Hr as [<- | Hr]; [reflexivity |]). destruct Hr. }
  split; [| split].
  - intros r Hr. split; [now apply Z | now rewrite (Z r Hr)].
  - intros r1 r2 x y H1 H2 S1 S2.
    rewrite (Z r1 H1) in S1. rewrite (Z r2 H2) in S2.
    injection S1 as <-. injection S2 as <-. split; reflexivity.
  - reflexivity.
Qed.

(** ** The credential check (claim C9) *)

(** C9. If the credential cannot be loaded (the secret is missing, or
    building the client from it fails), the run shows the page header and
    one error message and stops there: nothing of the three tabs is
    produced (no weights, scores or ranking, no prompt and no API call,
    no telemetry feedback), no frame is created, and the load is not
    tried again. *)
Theorem missing_credential_stops (env : Env) (inp : Inputs) (h : St.heap) :
  (Py.get (secrets env) "OPENAI_API_KEY" = None \/
   exists key, Py.get (secrets env) "OPENAI_API_KEY" = Some key /\
               OpenAI env key = None) ->
  script env inp h
  = ([St.set_page_config "Global Market Expansion";
      St.markdown [St.Str css];
      St.title "Global Market Expansion Platform";
      St.error key_error_message],
     h, St.Stopped).
Proof.
  intros H.
  assert (L : load_client env = None).
  { unfold load_client. destruct H as [-> | (key & -> & Hk)]; [reflexivity |].
    exact Hk. }
  unfold script, St.bind, St.try_except, St.emit. rewrite L. reflexivity.
Qed.

Lemma missing_credential_stops_witness :
  script env_no_secret inputs_default []
  = ([St.set_page_config "Global Market Expansion";
      St.markdown [St.Str css];
      St.title "Global Market Expansion Platform";
      St.error key_error_message],
     [], St.Stopped).
Proof.
  apply (missing_credential_stops env_no_secret inputs_default []).
  left. reflexivity.
Defined.

(** With a working credential the same run goes through the three tabs
    and ends normally. *)
Lemma working_credential_runs :
  exists events h,
    script env_ok inputs_default [] = (events, h, St.Done tt) /\
    In (St.subheader "Strategy Feedback") events /\ length h = 2.
Proof.
  eexists. eexists. split; [vm_compute; reflexivity |].
  split; [| reflexivity]. do 18 right. left. reflexivity.
Qed.

(** ** Instances on the reference table *)

Lemma top_n_first_n_witness :
  Pd.rows (top_n mock_data 5) = firstn 5 (Pd.rows mock_data) /\
  length (Pd.rows (top_n mock_data 5)) = 5 /\
  (forall i, i < 5 -> Pd.iloc (top_n mock_data 5) i = Pd.iloc mock_data i) /\
  (forall P, exists ranked8,
      rank mock_data (compute_weights P) = Some ranked8 /\
      length (Pd.rows (top_n ranked8 5)) = 5 /\
      Pd.rows (top_n ranked8 5) = firstn 5 (Pd.rows ranked8) /\
      forall k h, 3 <= k <= 8 ->
        slider_widget "Show top N markets:" 3 (Pd.len ranked8) 5 k h
        = ([St.slider "Show top N markets:" 3 8 5], h, St.Done k)).
Proof.
  apply (top_n_first_n mock_data 5);
    [exact mock_data_wf | change (Pd.len mock_data) with 8; lia].
Defined.


(** * Further properties of the script *)

(** ** Weights and the selected columns (lines 49-55 and 86-94) *)

Lemma In_list_iff (x : string) (P Q : list string) :
  (In x P <-> In x Q) -> Py.In_list x P = Py.In_list x Q.
Proof.
  intros H. destruct (Py.In_list x Q) eqn:E.
  - apply In_list_In. apply H. now apply In_list_In.
  - apply In_list_false. intros C. apply H in C.
    apply In_list_In in C. congruence.
Qed.

(** The weights, and with them the ranking of any frame, depend only on
    which of the five flags occur in the selection, not on their order,
    on repetitions, or on other names. *)
Theorem weights_depend_on_membership (P Q : list string) :
  (forall x, In x priority_options -> (In x P <-> In x Q)) ->
  compute_weights P = compute_weights Q /\
  forall d, rank d (compute_weights P) = rank d (compute_weights Q).
Proof.
  intros H.
  assert (E : compute_weights P = compute_weights Q).
  { unfold compute_weights.
    rewrite (In_list_iff "EV Adoption" P Q),
      (In_list_iff "Low Import Tariffs" P Q),
      (In_list_iff "Strong Infrastructure" P Q),
      (In_list_iff "Positive China Sentiment" P Q),
      (In_list_iff "Market Size" P Q);
      try reflexivity; apply H; cbn; tauto. }
  split; [assumption |]. intros d. now rewrite E.
Qed.

Lemma weights_depend_on_membership_witness :
  compute_weights ["Market Size"; "EV Adoption"; "Market Size"; "Price"]
    = compute_weights ["EV Adoption"; "Market Size"] /\
  forall d,
    rank d (compute_weights ["Market Size"; "EV Adoption"; "Market Size"; "Price"])
    = rank d (compute_weights ["EV Adoption"; "Market Size"]).
Proof.
  apply (weights_depend_on_membership
           ["Market Size"; "EV Adoption"; "Market Size"; "Price"]
           ["EV Adoption"; "Market Size"]).
  intros x Hx. cbn in Hx.
  destruct Hx as [<- | [<- | [<- | [<- | [<- | []]]]]]; cbn;
    (split; intros H;
     repeat match goal with
       | H : _ \/ _ |- _ => destruct H
       | H : False |- _ => destruct H
       | H : _ = _ |- _ => discriminate H
       end; tauto).
Defined.

(** The selected columns follow the selection: one column per occurrence
    of a known flag, in the order of the selection, each the column that
    [priority_map] gives for that flag; other names are skipped. *)
Theorem selected_cols_follow_selection (P : list string) :
  exists cols,
    selected_cols P = Some cols /\
    length cols = length (known_only P) /\
    Forall2 (fun k c => Py.get priority_map k = Some c) (known_only P) cols.
Proof.
  induction P as [| k P (cols & Hc & Hl & Hf)].
  - exists []. repeat split. constructor.
  - cbn [selected_cols known_only filter]. fold (known_only P).
    rewrite In_dict_priority_map.
    destruct (Py.In_list k priority_options) eqn:E.
    + rewrite <- In_dict_priority_map in E.
      destruct (In_dict_get _ _ E) as [c Hk]. rewrite Hk, Hc.
      exists (c :: cols). cbn. split; [reflexivity |].
      split; [now rewrite Hl | now constructor].
    + exists cols. now repeat split.
Qed.

(** ** Scoring (lines 57-63) *)

Lemma get_five (w : Py.dict num) :
  (exists a b c d e,
      Py.get w "EV Adoption" = Some a /\ Py.get w "Tariffs" = Some b /\
      Py.get w "Charging_Stations" = Some c /\
      Py.get w "China_Sentiment" = Some d /\ Py.get w "Market_Size" = Some e) \/
  (exists k,
      In k ["EV Adoption"; "Tariffs"; "Charging_Stations"; "China_Sentiment";
            "Market_Size"] /\ Py.get w k = None).
Proof.
  destruct (Py.get w "EV Adoption") as [a |] eqn:E1;
    [| right; eexists; split; [| exact E1]; cbn; tauto].
  destruct (Py.get w "Tariffs") as [b |] eqn:E2;
    [| right; eexists; split; [| exact E2]; cbn; tauto].
  destruct (Py.get w "Charging_Stations") as [c |] eqn:E3;
    [| right; eexists; split; [| exact E3]; cbn; tauto].
  destruct (Py.get w "China_Sentiment") as [d |] eqn:E4;
    [| right; eexists; split; [| exact E4]; cbn; tauto].
  destruct (Py.get w "Market_Size") as [e |] eqn:E5;
    [| right; eexists; split; [| exact E5]; cbn; tauto].
  left. now exists a, b, c, d, e.
Qed.

(** Computing the score column raises (a [KeyError]) exactly when one of
    the five keys is missing from the weights; for the weights built from
    a selection this never happens, whatever the frame. *)
Theorem scoring_fails_only_on_missing_key (d : Pd.DataFrame) (w : Py.dict num) :
  (Score_expr d w = None <->
   exists k,
     In k ["EV Adoption"; "Tariffs"; "Charging_Stations"; "China_Sentiment";
           "Market_Size"] /\ Py.get w k = None) /\
  forall P, Score_expr d (compute_weights P) <> None.
Proof.
  split.
  - split.
    + intros H. destruct (get_five w) as [(a & b & c & e & f & G) | G];
        [| assumption].
      destruct G as (G1 & G2 & G3 & G4 & G5).
      destruct (Score_expr_cells d w _ _ _ _ _ G1 G2 G3 G4 G5) as (s & Hs & _).
      congruence.
    + intros (k & Hk & Hn). unfold Score_expr. cbn in Hk.
      destruct Hk as [<- | [<- | [<- | [<- | [<- | []]]]]];
        repeat match goal with
          | |- obind (Py.get w ?key) _ = None =>
              first [ rewrite Hn; reflexivity
                    | destruct (Py.get w key); [cbn [obind] | reflexivity] ]
          end.
  - intros P. destruct (Score_expr_compute_weights d P) as [s ->]. discriminate.
Qed.

(** On a well-formed frame the score column is always a [float64] column
    (because of the true division), with one cell per row, and the frame
    is still well-formed once the column is assigned. *)
Theorem score_column_shape (d : Pd.DataFrame) (w : Py.dict num) (s : Pd.Series) :
  Pd.wf d -> Score_expr d w = Some s ->
  exists l,
    s = Pd.Float64 l /\ length l = Pd.len d /\
    Pd.wf (Pd.set_Score d s) /\ Pd.len (Pd.set_Score d s) = Pd.len d.
Proof.
  intros W H. destruct (Score_expr_float d w s H) as [l ->].
  pose proof (Score_expr_size d w _ W H) as Hs.
  exists l. split; [reflexivity |]. split; [exact Hs |].
  split; [now apply set_Score_wf | reflexivity].
Qed.

Lemma score_column_shape_witness :
  exists l,
    Pd.Float64 (repeat F64.zero 8) = Pd.Float64 l /\
    length l = Pd.len mock_data /\
    Pd.wf (Pd.set_Score mock_data (Pd.Float64 (repeat F64.zero 8))) /\
    Pd.len (Pd.set_Score mock_data (Pd.Float64 (repeat F64.zero 8)))
      = Pd.len mock_data.
Proof.
  apply (score_column_shape mock_data (compute_weights []));
    [exact mock_data_wf | vm_compute; reflexivity].
Defined.

(** ** Ranking and truncation (lines 64-72) *)

Lemma iloc_scored (d : Pd.DataFrame) (l : list F64.t) (p : nat) (r : Pd.Row) :
  Pd.iloc (Pd.set_Score d (Pd.Float64 l)) p = Some r ->
  exists y, nth_error l p = Some y /\ Pd.row_Score r = Some (F y).
Proof.
  intros H. apply iloc_cells in H.
  destruct H as (_ & _ & _ & _ & _ & _ & _ & sc & Hc & Hs).
  cbn in Hc. destruct (nth_error l p) as [y |]; [| discriminate].
  injection Hc as <-. now exists y.
Qed.

Lemma ranked_row (d ranked : Pd.DataFrame) (l : list F64.t) (j : nat) (r : Pd.Row) :
  (forall i, Pd.iloc ranked i
             = (p <- nth_error (Pd.argsort_desc (Pd.Float64 l)) i ;;
                Pd.iloc (Pd.set_Score d (Pd.Float64 l)) p)) ->
  Pd.iloc ranked j = Some r ->
  exists p y,
    nth_error (Pd.argsort_desc (Pd.Float64 l)) j = Some p /\
    nth_error l p = Some y /\ Pd.row_Score r = Some (F y).
Proof.
  intros Hiloc Hr. rewrite Hiloc in Hr.
  destruct (nth_error (Pd.argsort_desc (Pd.Float64 l)) j) as [p |];
    [| discriminate].
  cbn [obind] in Hr. destruct (iloc_scored d l p r Hr) as (y & Hy & Hs).
  now exists p, y.
Qed.

(** The record shown as the top-ranked market has a score that no record
    of the ranking exceeds, and every ranked record carries a score. *)
Theorem top_ranked_is_maximal (d : Pd.DataFrame) (w : Py.dict num)
    (ranked : Pd.DataFrame) (top : Pd.Row) :
  Pd.wf d -> rank d w = Some ranked -> Pd.iloc ranked 0 = Some top ->
  exists x,
    Pd.row_Score top = Some (F x) /\
    forall r, In r (Pd.rows ranked) ->
      exists y, Pd.row_Score r = Some (F y) /\ F64.ltb x y = false.
Proof.
  intros W Hr Ht.
  destruct (Score_expr d w) as [s |] eqn:Hs;
    [| unfold rank in Hr; rewrite Hs in Hr; discriminate].
  destruct (Score_expr_float d w s Hs) as [l ->].
  destruct (rank_spec d w _ W Hs) as (ranked' & Hr' & Wr & _ & Hiloc).
  assert (ranked' = ranked) by congruence. subst ranked'.
  destruct (ranked_row d ranked l 0 top Hiloc Ht) as (p0 & x & Hp0 & Hx & Hsx).
  exists x. split; [assumption |]. intros r Hin.
  apply In_nth_error in Hin as [j Hj]. rewrite rows_nth in Hj by assumption.
  destruct (ranked_row d ranked l j r Hiloc Hj) as (q & y & Hq & Hy & Hsy).
  exists y. split; [assumption |].
  destruct j as [| j].
  - assert (q = p0) by congruence. subst q.
    assert (y = x) by congruence. subst y.
    destruct (F64.ltb x x) eqn:E; [| reflexivity].
    pose proof (F64Facts.ltb_asym _ _ E). congruence.
  - pose proof (sorted_cells_nth l 0 p0 x Hp0 Hx) as L0.
    pose proof (sorted_cells_nth l (S j) q y Hq Hy) as Lj.
    destruct (StronglySorted_nth _ _ (sorted_cells_sorted l) 0 (S j) _ _
                ltac:(lia) L0 Lj) as [C _].
    exact C.
Qed.

Lemma top_ranked_is_maximal_witness :
  Pd.wf mock_data /\
  rank mock_data (compute_weights ["Market Size"]) = Some market_size_ranked /\
  Pd.iloc market_size_ranked 0 = Some market_size_first /\
  exists x,
    Pd.row_Score market_size_first = Some (F x) /\
    forall r, In r (Pd.rows market_size_ranked) ->
      exists y, Pd.row_Score r = Some (F y) /\ F64.ltb x y = false.
Proof.
  split; [exact mock_data_wf |].
  split; [vm_compute; reflexivity |].
  split; [vm_compute; reflexivity |].
  apply (top_ranked_is_maximal mock_data (compute_weights ["Market Size"])
           market_size_ranked market_size_first);
    [exact mock_data_wf | vm_compute; reflexivity | vm_compute; reflexivity].
Defined.

Lemma rows_labels (d : Pd.DataFrame) :
  Pd.wf d -> map Pd.row_label (Pd.rows d) = Pd.index d.
Proof.
  intros W. apply nth_error_ext. intros i.
  rewrite nth_error_map, rows_nth by assumption.
  destruct (Pd.iloc d i) as [r |] eqn:E; cbn.
  - apply iloc_cells in E. destruct E as (E & _). now rewrite E.
  - destruct (Nat.lt_ge_cases i (Pd.len d)) as [H | H].
    + destruct (iloc_Some d i W H). congruence.
    + symmetry. now apply nth_error_None.
Qed.

Lemma rows_Country (d : Pd.DataFrame) :
  Pd.wf d -> map Pd.row_Country (Pd.rows d) = Pd.Country d.
Proof.
  intros W. apply nth_error_ext. intros i.
  rewrite nth_error_map, rows_nth by assumption.
  destruct (Pd.iloc d i) as [r |] eqn:E; cbn.
  - apply iloc_cells in E. destruct E as (_ & E & _). now rewrite E.
  - destruct (Nat.lt_ge_cases i (Pd.len d)) as [H | H].
    + destruct (iloc_Some d i W H). congruence.
    + symmetry. apply nth_error_None. destruct W as (C & _). lia.
Qed.

(** Ranking never raises on a well-formed frame, whatever the selection:
    it returns a well-formed frame with the same number of rows, whose row
    labels and countries are those of the input, rearranged. *)
Theorem rank_total (d : Pd.DataFrame) (P : list string) :
  Pd.wf d ->
  exists ranked,
    rank d (compute_weights P) = Some ranked /\
    Pd.wf ranked /\ Pd.len ranked = Pd.len d /\
    Permutation (Pd.index ranked) (Pd.index d) /\
    Permutation (Pd.Country ranked) (Pd.Country d).
Proof.
  intros W. destruct (Score_expr_compute_weights d P) as [s Hs].
  destruct (rank_spec d _ s W Hs) as (ranked & Hr & Wr & Hlen & Hiloc).
  pose proof (Score_expr_size d _ s W Hs) as Hsize.
  pose proof (set_Score_wf d s W Hsize) as W'.
  pose proof (argsort_desc_perm s) as Hperm. rewrite Hsize in Hperm.
  assert (R : Permutation (Pd.rows ranked) (Pd.rows (Pd.set_Score d s))).
  { apply (rank_rows_perm _ _ (Pd.argsort_desc s)); try assumption.
    now rewrite Hlen, (Permutation_length Hperm), length_seq. }
  exists ranked. split; [assumption |]. split; [assumption |].
  split; [assumption |]. split.
  - rewrite <- (rows_labels ranked Wr).
    change (Pd.index d) with (Pd.index (Pd.set_Score d s)).
    rewrite <- (rows_labels _ W'). now apply Permutation_map.
  - rewrite <- (rows_Country ranked Wr).
    change (Pd.Country d) with (Pd.Country (Pd.set_Score d s)).
    rewrite <- (rows_Country _ W'). now apply Permutation_map.
Qed.

Lemma rank_total_witness :
  exists ranked,
    rank mock_data (compute_weights ["Market Size"]) = Some ranked /\
    Pd.wf ranked /\ Pd.len ranked = Pd.len mock_data /\
    Permutation (Pd.index ranked) (Pd.index mock_data) /\
    Permutation (Pd.Country ranked) (Pd.Country mock_data).
Proof. apply (rank_total mock_data ["Market Size"]). exact mock_data_wf. Defined.

Lemma head_series_all (n : nat) (s : Pd.Series) :
  Pd.size s <= n -> Pd.head_series n s = s.
Proof. destruct s as [l | l]; cbn; intros H; now rewrite firstn_all2. Qed.

(** [top_n] with an [n] below the number of records keeps [n] of them,
    and with an [n] that reaches or exceeds it returns the frame
    unchanged, without raising. *)
Theorem top_n_bounds (d : Pd.DataFrame) (n : nat) :
  Pd.wf d ->
  length (Pd.rows (top_n d n)) = Nat.min n (Pd.len d) /\
  (Pd.len d <= n -> top_n d n = d).
Proof.
  intros W.
  assert (A : Pd.len d <= n -> top_n d n = d).
  { intros H. destruct W as (C & Ev & Ta & Cs & Se & Ms & Sc).
    unfold top_n, Pd.head, Pd.len in *.
    rewrite !head_series_all, !firstn_all2 by lia.
    destruct d as [ix co ev ta cs se ms [sc |]]; cbn in *;
      [now rewrite head_series_all by lia | reflexivity]. }
  split; [| exact A].
  destruct (Nat.le_ge_cases n (Pd.len d)) as [H | H].
  - unfold top_n. destruct (head_wf n d W H) as [W' L].
    rewrite rows_length by assumption. lia.
  - rewrite (A H), rows_length by assumption. lia.
Qed.

Lemma top_n_bounds_witness :
  length (Pd.rows (top_n mock_data 20)) = Nat.min 20 (Pd.len mock_data) /\
  (Pd.len mock_data <= 20 -> top_n mock_data 20 = mock_data).
Proof. apply (top_n_bounds mock_data 20). exact mock_data_wf. Defined.

(** ** Telemetry feedback (lines 214-223) *)

(** For a metric that is neither one of the four higher-is-better
    metrics nor CPI, no threshold applies: the note is the stable one for
    every trend. *)
Theorem note_unknown_metric (metric : string) (t : num) :
  ~ In metric higher_is_better -> metric <> "CPI" ->
  note metric t = note_stable.
Proof.
  intros H C. apply In_list_false in H. apply String.eqb_neq in C.
  unfold note. now rewrite H, C.
Qed.

Lemma note_unknown_metric_witness : note "Clicks" (I 7) = note_stable.
Proof.
  apply (note_unknown_metric "Clicks" (I 7)).
  - cbn. intros [H | [H | [H | [H | []]]]]; discriminate H.
  - discriminate.
Defined.

(** A trend that is NaN passes no test: the note is the stable one for
    every metric. *)
Theorem note_nan_trend (metric : string) :
  note metric (F S754_nan) = note_stable.
Proof.
  unfold note.
  change (Py.gt (F S754_nan) (F f_0_3)) with false.
  change (Py.lt (F S754_nan) (I (-2))) with false.
  change (Py.lt (F S754_nan) (F f_0_1)) with false.
  change (Py.gt (F S754_nan) (I 1)) with false.
  now rewrite !andb_false_r.
Qed.

Lemma rev_short {A : Type} (l : list A) :
  length l < 2 -> nth_error (rev l) 1 = None.
Proof. intros H. apply nth_error_None. rewrite length_rev. lia. Qed.

Lemma last_two_inv {A : Type} (l : list A) (a b : A) :
  Py.last1 l = Some a -> Py.last2 l = Some b ->
  exists pre, l = pre ++ [b; a].
Proof.
  unfold Py.last1, Py.last2. intros H1 H2.
  destruct (rev l) as [| x [| y r]] eqn:E; try discriminate.
  cbn in H1, H2. injection H1 as ->. injection H2 as ->.
  exists (rev r). rewrite <- (rev_involutive l), E. cbn.
  now rewrite <- app_assoc.
Qed.

(** The trend of a region needs the metric's series and two observations
    in it: with the series missing ([KeyError]) or shorter than two
    ([IndexError]) there is no trend and no note; and whenever there is a
    trend it is the last observation minus the one before it. *)
Theorem trend_needs_two_observations (stats : Py.dict (list num))
    (metric : string) :
  (Py.get stats metric = None ->
     trend stats metric = None /\ feedback stats metric = None) /\
  (forall series, Py.get stats metric = Some series -> length series < 2 ->
     trend stats metric = None /\ feedback stats metric = None) /\
  (forall t, trend stats metric = Some t ->
     exists pre a b,
       Py.get stats metric = Some (pre ++ [b; a]) /\ Py.sub a b = Some t).
Proof.
  unfold feedback, trend. split; [| split].
  - intros ->. now split.
  - intros series -> H. cbn [obind]. unfold Py.last2.
    rewrite (rev_short series H).
    destruct (Py.last1 series); now split.
  - intros t H.
    destruct (Py.get stats metric) as [series |]; [| discriminate].
    cbn [obind] in H.
    destruct (Py.last1 series) as [a |] eqn:E1; [| discriminate].
    cbn [obind] in H.
    destruct (Py.last2 series) as [b |] eqn:E2; [| discriminate].
    cbn [obind] in H.
    destruct (last_two_inv series a b E1 E2) as [pre ->].
    now exists pre, a, b.
Qed.

(** Integer observations give an exact integer trend, whatever their
    size. *)
Theorem trend_of_integers (stats : Py.dict (list num)) (metric : string)
    (pre : list num) (a b : Z) :
  Py.get stats metric = Some (pre ++ [I b; I a]) ->
  trend stats metric = Some (I (a - b)).
Proof.
  intros H. unfold trend. rewrite H. cbn [obind].
  destruct (last_two pre (I a) (I b)) as [-> ->]. reflexivity.
Qed.

Lemma trend_of_integers_witness :
  trend [("CPI", [I 25; I 24; I 23; I 22])] "CPI" = Some (I (22 - 23)).
Proof.
  apply (trend_of_integers [("CPI", [I 25; I 24; I 23; I 22])] "CPI"
           [I 25; I 24]).
  reflexivity.
Defined.

(** ** The target market (lines 116-117) *)

Lemma find_first {A : Type} (f : A -> bool) (l : list A) (x : A) :
  find f l = Some x ->
  exists i, nth_error l i = Some x /\ f x = true /\
            forall j y, j < i -> nth_error l j = Some y -> f y = false.
Proof.
  induction l as [| a l IH]; cbn; [discriminate |].
  destruct (f a) eqn:E.
  - intros [= <-]. exists 0. repeat split; [assumption | lia].
  - intros H. destruct (IH H) as (i & Hi & Hf & Hb).
    exists (S i). repeat split; try assumption.
    intros [| j] y Hj Hy; cbn in Hy.
    + now injection Hy as <-.
    + apply (Hb j); [lia | assumption].
Qed.

(** The row of the target market: the lookup fails (an [IndexError])
    exactly when the chosen name is not in the [Country] column;
    otherwise it is the first row of the frame with that country. *)
Theorem country_data_lookup (d : Pd.DataFrame) (selected_country : string) :
  Pd.wf d ->
  (find (fun r => String.eqb (Pd.row_Country r) selected_country) (Pd.rows d)
     = None <-> ~ In selected_country (Pd.Country d)) /\
  forall r,
    find (fun r => String.eqb (Pd.row_Country r) selected_country) (Pd.rows d)
      = Some r ->
    Pd.row_Country r = selected_country /\
    exists i, Pd.iloc d i = Some r /\
      forall j r', j < i -> Pd.iloc d j = Some r' ->
        Pd.row_Country r' <> selected_country.
Proof.
  intros W. split; [split |].
  - intros H C. rewrite <- (rows_Country d W) in C.
    apply in_map_iff in C as (r & Hr & Hin).
    pose proof (find_none _ _ H r Hin) as F0. cbn in F0.
    rewrite Hr, String.eqb_refl in F0. discriminate.
  - intros H.
    destruct (find _ (Pd.rows d)) as [r |] eqn:E; [| reflexivity].
    apply find_some in E as [Hin Hc]. apply String.eqb_eq in Hc.
    exfalso. apply H. rewrite <- (rows_Country d W), <- Hc.
    now apply in_map.
  - intros r H. destruct (find_first _ _ _ H) as (i & Hi & Hf & Hb).
    apply String.eqb_eq in Hf. split; [assumption |].
    exists i. rewrite rows_nth in Hi by assumption. split; [assumption |].
    intros j r' Hj Hr'. rewrite <- rows_nth in Hr' by assumption.
    apply String.eqb_neq. now apply (Hb j).
Qed.

Lemma country_data_lookup_witness :
  (find (fun r => String.eqb (Pd.row_Country r) "Germany") (Pd.rows mock_data)
     = None <-> ~ In "Germany" (Pd.Country mock_data)) /\
  forall r,
    find (fun r => String.eqb (Pd.row_Country r) "Germany") (Pd.rows mock_data)
      = Some r ->
    Pd.row_Country r = "Germany" /\
    exists i, Pd.iloc mock_data i = Some r /\
      forall j r', j < i -> Pd.iloc mock_data j = Some r' ->
        Pd.row_Country r' <> "Germany".
Proof. apply (country_data_lookup mock_data "Germany"). exact mock_data_wf. Defined.

(** ** Running the tabs *)

Ltac st_step :=
  cbn [St.bind St.emit St.ret St.lift St.raise St.stop app].

Ltac st_with E :=
  unfold St.bind at 1; cbv beta; rewrite E; st_step.

Lemma slider_run (label : string) (lo hi dflt user : nat) (h : St.heap) :
  lo <= dflt -> dflt <= hi ->
  slider_widget label lo hi dflt user h
  = ([St.slider label lo hi dflt], h, St.Done (slider_value lo hi dflt user)).
Proof.
  intros H1 H2. unfold slider_widget.
  apply Nat.leb_le in H1, H2. rewrite H1, H2. reflexivity.
Qed.


(** Tab 1 on a well-formed frame with at least five rows. *)
Lemma tab1_run (inp : Inputs) (h : St.heap) (df : St.addr) (d : Pd.DataFrame) :
  nth_error h df = Some d -> Pd.wf d -> 5 <= Pd.len d ->
  exists s ranked top sc cols,
    Score_expr d (compute_weights (in_priority inp)) = Some s /\
    rank d (compute_weights (in_priority inp)) = Some ranked /\
    Pd.len ranked = Pd.len d /\
    Pd.iloc ranked 0 = Some top /\
    Pd.row_Score top = Some sc /\
    selected_cols (in_priority inp) = Some cols /\
    tab1 inp df h
    = (tab1_page ranked (slider_value 3 (Pd.len d) 5 (in_top_n inp)) top sc cols,
       St.update h df (Pd.set_Score d s) ++ [ranked], St.Done tt).
Proof.
  intros Hd W H5.
  destruct (Score_expr_compute_weights d (in_priority inp)) as [s Hs].
  destruct (Score_expr_float d _ s Hs) as [l ->].
  destruct (rank_spec d _ _ W Hs) as (ranked & Hr & Wr & Hlen & Hiloc).
  destruct (iloc_Some ranked 0 Wr ltac:(lia)) as [top Ht].
  destruct (ranked_row d ranked l 0 top Hiloc Ht) as (p & y & _ & _ & Hsc).
  destruct (selected_cols_total (in_priority inp)) as [cols Hc].
  exists (Pd.Float64 l), ranked, top, (F y), cols.
  repeat match goal with |- _ /\ _ => split end; try assumption.
  unfold tab1. st_step.
  st_with (rank_step_run _ h df d _ ranked Hd Hs Hr).
  assert (Rd : St.read (length h)
                 (St.update h df (Pd.set_Score d (Pd.Float64 l)) ++ [ranked])
               = ([], St.update h df (Pd.set_Score d (Pd.Float64 l)) ++ [ranked],
                  St.Done ranked)).
  { unfold St.read.
    rewrite nth_error_app2 by (rewrite update_length; lia).
    now rewrite update_length, Nat.sub_diag. }
  st_with Rd. rewrite Hlen.
  st_with (slider_run "Show top N markets:" 3 (Pd.len d) 5 (in_top_n inp)
             (St.update h df (Pd.set_Score d (Pd.Float64 l)) ++ [ranked])
             ltac:(lia) H5).
  rewrite Ht. st_step. rewrite Hsc. st_step. rewrite Hc. st_step.
  unfold tab1_page. rewrite Hlen.
  destruct (Nat.leb 3 (length cols)); reflexivity.
Qed.

Lemma read_run (h : St.heap) (a : St.addr) (d : Pd.DataFrame) :
  nth_error h a = Some d -> St.read a h = ([], h, St.Done d).
Proof. intros H. unfold St.read. now rewrite H. Qed.

(** Tab 2, once the row of the target market is found. *)
Lemma tab2_run (env : Env) (inp : Inputs) (h : St.heap) (df : St.addr)
    (d : Pd.DataFrame) (r : Pd.Row) :
  nth_error h df = Some d ->
  country_data_of d (in_selected_country inp) = Some r ->
  tab2 env inp df h =
  if in_button inp then
    match chat_create env (tab2_messages r inp) with
    | Some response =>
        (tab2_form d inp
         ++ [ St.spinner "Thinking like a strategist...";
              St.chat_completion "gpt-4" (tab2_messages r inp);
              St.success "Strategy ready!";
              St.markdown [St.Str response] ],
         h, St.Done tt)
    | None =>
        (tab2_form d inp
         ++ [ St.spinner "Thinking like a strategist...";
              St.chat_completion "gpt-4" (tab2_messages r inp) ],
         h, St.Raised "APIError")
    end
  else (tab2_form d inp, h, St.Done tt).
Proof.
  intros Hd Hr. unfold country_data_of in Hr.
  unfold tab2. st_with (read_run h df d Hd). rewrite Hr. st_step.
  destruct (in_button inp); [| reflexivity]. st_step.
  fold (tab2_messages r inp).
  destruct (chat_create env (tab2_messages r inp)); reflexivity.
Qed.

Lemma tab2_missing (env : Env) (inp : Inputs) (h : St.heap) (df : St.addr)
    (d : Pd.DataFrame) :
  nth_error h df = Some d ->
  country_data_of d (in_selected_country inp) = None ->
  tab2 env inp df h
  = ([St.selectbox "Choose a target market:" (Pd.Country d)], h,
     St.Raised "IndexError").
Proof.
  intros Hd Hr. unfold country_data_of in Hr.
  unfold tab2. st_with (read_run h df d Hd). rewrite Hr. reflexivity.
Qed.

Lemma for_each_feedback (l : Py.dict (Py.dict (list num))) (metric : string)
    (notes : list (string * string)) (h : St.heap) :
  St.traverse (fun rs => nt <- feedback (snd rs) metric ;; Some (fst rs, nt)) l
    = Some notes ->
  St.for_each l (fun rs =>
    nt <== St.lift "Exception" (feedback (snd rs) metric) ;;
    St.emit (St.markdown [St.Str "**"; St.Str (fst rs); St.Str ":** "; St.Str nt])) h
  = (map (fun rn => feedback_line (fst rn) (snd rn)) notes, h, St.Done tt).
Proof.
  revert notes. induction l as [| rs l IH]; intros notes H; cbn in H.
  - injection H as <-. reflexivity.
  - destruct (feedback (snd rs) metric) as [nt |] eqn:E; [| discriminate].
    cbn [obind] in H.
    destruct (St.traverse _ l) as [rest |]; [| discriminate].
    cbn [obind] in H. injection H as <-.
    cbn [St.for_each]. st_step. rewrite E. st_step.
    rewrite (IH rest eq_refl). reflexivity.
Qed.

(** Tab 3, once the metric, its traces and the notes exist. *)
Lemma tab3_run (inp : Inputs) (h : St.heap) (metric : string)
    (traces : list (string * list num)) (notes : list (string * string)) :
  Py.get kpi_map (in_selected_kpi inp) = Some metric ->
  traces_for metric = Some traces -> notes_for metric = Some notes ->
  tab3 inp h = (tab3_page (in_selected_kpi inp) traces notes, h, St.Done tt).
Proof.
  intros Hm Ht Hn. unfold traces_for in Ht. unfold notes_for in Hn.
  unfold tab3. st_step. rewrite Hm. st_step. rewrite Ht. st_step.
  rewrite (for_each_feedback telemetry metric notes h Hn). reflexivity.
Qed.

Lemma get_None_keys {V : Type} (d : Py.dict V) (k : string) :
  ~ In k (map fst d) -> Py.get d k = None.
Proof.
  induction d as [| [k' v] d IH]; cbn; [reflexivity |].
  intros H. destruct (String.eqb_spec k k') as [-> | N]; [tauto |].
  apply IH. tauto.
Qed.

Lemma kpi_known (kpi : string) :
  In kpi kpi_options ->
  exists metric traces notes,
    Py.get kpi_map kpi = Some metric /\
    traces_for metric = Some traces /\ notes_for metric = Some notes /\
    map fst traces = map fst telemetry /\ map fst notes = map fst telemetry.
Proof.
  intros H. cbn in H.
  destruct H as [<- | [<- | [<- | [<- | [<- | []]]]]];
    eexists; eexists; eexists;
    (split; [reflexivity |]);
    (split; [vm_compute; reflexivity |]);
    (split; [vm_compute; reflexivity |]);
    split; reflexivity.
Qed.

(** The script after a successful load: the header, the frame, the tab
    bar, then the three tabs on the same store. *)
Lemma script_run (env : Env) (inp : Inputs) (client : string)
    (ev : list St.Event) (h' : St.heap) (o : St.outcome unit) :
  load_client env = Some client ->
  (tab1 inp 0 ;;; tab2 env inp 0 ;;; tab3 inp) [mock_data] = (ev, h', o) ->
  script env inp [] = (header ++ St.tabs tab_labels :: ev, h', o).
Proof.
  intros L H. unfold St.bind in H.
  unfold script, St.try_except, St.bind, St.emit, St.new, St.lift, St.ret.
  rewrite L. cbv beta iota.
  change (@Datatypes.length Pd.DataFrame []) with 0.
  change (@nil Pd.DataFrame ++ [mock_data]) with [mock_data].
  change ["🌍 Market Discovery"; "🎯 GTM Strategy"; "📊 Monitor & Adapt"]
    with tab_labels.
  destruct (tab1 inp 0 [mock_data]) as [[e1 h1] [[] | | x1]].
  - destruct (tab2 env inp 0 h1) as [[e2 h2] [[] | | x2]].
    + destruct (tab3 inp h2) as [[e3 h3] o3].
      injection H as <- <- <-. reflexivity.
    + injection H as <- <- <-. reflexivity.
    + injection H as <- <- <-. reflexivity.
  - injection H as <- <- <-. reflexivity.
  - injection H as <- <- <-. reflexivity.
Qed.

Lemma country_data_found (d : Pd.DataFrame) (c : string) :
  Pd.wf d -> In c (Pd.Country d) -> exists r, country_data_of d c = Some r.
Proof.
  intros W H. unfold country_data_of.
  destruct (find _ (Pd.rows d)) as [r |] eqn:E; [now exists r |].
  rewrite <- (rows_Country d W) in H.
  apply in_map_iff in H as (r & Hr & Hin).
  pose proof (find_none _ _ E r Hin) as F0. cbn in F0.
  rewrite Hr, String.eqb_refl in F0. discriminate.
Qed.

Lemma find_map {A B : Type} (g : A -> B) (f : B -> bool) (l : list A) :
  find f (map g l) = option_map g (find (fun x => f (g x)) l).
Proof.
  induction l as [| a l IH]; cbn; [reflexivity |].
  destruct (f (g a)); [reflexivity | exact IH].
Qed.

Lemma iloc_without_Score (d : Pd.DataFrame) (s : Pd.Series) (i : nat) :
  Pd.wf d -> Pd.size s = Pd.len d ->
  option_map without_Score (Pd.iloc (Pd.set_Score d s) i)
  = option_map without_Score (Pd.iloc d i).
Proof.
  intros W Hs.
  destruct (Nat.lt_ge_cases i (Pd.len d)) as [H | H].
  - destruct (iloc_Some d i W H) as [r Hr].
    destruct (iloc_Some _ i (set_Score_wf d s W Hs) H) as [r' Hr'].
    rewrite Hr, Hr'. cbn. unfold without_Score.
    apply iloc_cells in Hr. apply iloc_cells in Hr'.
    unfold Pd.set_Score in Hr'.
    cbn [Pd.index Pd.Country Pd.EV_Adoption Pd.Tariffs Pd.Charging_Stations
         Pd.China_Sentiment Pd.Market_Size] in Hr'.
    destruct Hr as (A1 & A2 & A3 & A4 & A5 & A6 & A7 & _).
    destruct Hr' as (B1 & B2 & B3 & B4 & B5 & B6 & B7 & _).
    f_equal. f_equal; congruence.
  - rewrite (iloc_None d i H).
    now rewrite (iloc_None (Pd.set_Score d s) i H).
Qed.

Lemma rows_without_Score (d : Pd.DataFrame) (s : Pd.Series) :
  Pd.wf d -> Pd.size s = Pd.len d ->
  map without_Score (Pd.rows (Pd.set_Score d s))
  = map without_Score (Pd.rows d).
Proof.
  intros W Hs. apply nth_error_ext. intros i.
  rewrite !nth_error_map, !rows_nth by (assumption || now apply set_Score_wf).
  now apply iloc_without_Score.
Qed.

Lemma country_data_without_Score (d : Pd.DataFrame) (s : Pd.Series) (c : string) :
  Pd.wf d -> Pd.size s = Pd.len d ->
  option_map without_Score (country_data_of (Pd.set_Score d s) c)
  = option_map without_Score (country_data_of d c).
Proof.
  intros W Hs. unfold country_data_of.
  rewrite <- !(find_map without_Score
                 (fun r => String.eqb (Pd.row_Country r) c)).
  now rewrite rows_without_Score.
Qed.

Lemma tab2_messages_without_Score (r : Pd.Row) (inp : Inputs) :
  tab2_messages r inp = tab2_messages (without_Score r) inp.
Proof. reflexivity. Qed.

(** ** What the tabs do (lines 43-112, 114-157, 160-224) *)



(** What tab 2 shows and sends does not depend on the [Score] column
    that tab 1 has assigned to the shared frame: with any two score
    columns the events and the outcome are the same, so neither the form
    nor the prompt changes with the selected priorities. *)
Theorem tab2_ignores_Score (env : Env) (inp : Inputs) (df : St.addr)
    (h1 h2 : St.heap) (d : Pd.DataFrame) (s1 s2 : Pd.Series) :
  Pd.wf d -> Pd.size s1 = Pd.len d -> Pd.size s2 = Pd.len d ->
  nth_error h1 df = Some (Pd.set_Score d s1) ->
  nth_error h2 df = Some (Pd.set_Score d s2) ->
  fst (fst (tab2 env inp df h1)) = fst (fst (tab2 env inp df h2)) /\
  snd (tab2 env inp df h1) = snd (tab2 env inp df h2).
Proof.
  intros W S1 S2 H1 H2.
  pose proof (country_data_without_Score d s1 (in_selected_country inp) W S1) as C1.
  pose proof (country_data_without_Score d s2 (in_selected_country inp) W S2) as C2.
  destruct (country_data_of (Pd.set_Score d s1) (in_selected_country inp))
    as [r1 |] eqn:E1;
    destruct (country_data_of (Pd.set_Score d s2) (in_selected_country inp))
      as [r2 |] eqn:E2;
    destruct (country_data_of d (in_selected_country inp)) as [r |];
    try discriminate.
  - rewrite (tab2_run env inp h1 df _ r1 H1 E1),
      (tab2_run env inp h2 df _ r2 H2 E2).
    rewrite (tab2_messages_without_Score r1), (tab2_messages_without_Score r2).
    cbn [option_map] in C1, C2.
    assert (X1 : without_Score r1 = without_Score r) by congruence.
    assert (X2 : without_Score r2 = without_Score r) by congruence.
    rewrite X1, X2.
    change (tab2_form (Pd.set_Score d s1) inp) with (tab2_form d inp).
    change (tab2_form (Pd.set_Score d s2) inp) with (tab2_form d inp).
    destruct (in_button inp); [| now split].
    destruct (chat_create env (tab2_messages (without_Score r) inp)); now split.
  - rewrite (tab2_missing env inp h1 df _ H1 E1),
      (tab2_missing env inp h2 df _ H2 E2). now split.
Qed.

Lemma tab2_ignores_Score_witness :
  fst (fst (tab2 env_ok inputs_pressed 0
              [Pd.set_Score mock_data (Pd.Float64 (repeat F64.zero 8))]))
  = fst (fst (tab2 env_ok inputs_pressed 0
                [Pd.set_Score mock_data (Pd.Int64 (repeat 1%Z 8))])) /\
  snd (tab2 env_ok inputs_pressed 0
         [Pd.set_Score mock_data (Pd.Float64 (repeat F64.zero 8))])
  = snd (tab2 env_ok inputs_pressed 0
           [Pd.set_Score mock_data (Pd.Int64 (repeat 1%Z 8))]).
Proof.
  apply (tab2_ignores_Score env_ok inputs_pressed 0 _ _ mock_data
           (Pd.Float64 (repeat F64.zero 8)) (Pd.Int64 (repeat 1%Z 8)));
    [exact mock_data_wf | reflexivity ..].
Defined.

(** The chat service is called only when the button is pressed: without
    it tab 2 shows its form and nothing else, and the store is left as
    it was. *)
Theorem tab2_without_button (env : Env) (inp : Inputs) (df : St.addr)
    (h : St.heap) (d : Pd.DataFrame) :
  Pd.wf d -> nth_error h df = Some d ->
  In (in_selected_country inp) (Pd.Country d) ->
  in_button inp = false ->
  tab2 env inp df h = (tab2_form d inp, h, St.Done tt).
Proof.
  intros W Hd Hc Hb.
  destruct (country_data_found d _ W Hc) as [r Hr].
  rewrite (tab2_run env inp h df d r Hd Hr), Hb. reflexivity.
Qed.

Lemma tab2_without_button_witness :
  tab2 env_api_down inputs_default 0 [mock_data]
  = (tab2_form mock_data inputs_default, [mock_data], St.Done tt).
Proof.
  apply (tab2_without_button env_api_down inputs_default 0 [mock_data] mock_data);
    [exact mock_data_wf | reflexivity | left; reflexivity | reflexivity].
Defined.

(** A country that is not in the table makes tab 2 raise an [IndexError]
    right after the selectbox: no text input, no button, no request. *)
Theorem tab2_unknown_country (env : Env) (inp : Inputs) (df : St.addr)
    (h : St.heap) (d : Pd.DataFrame) :
  Pd.wf d -> nth_error h df = Some d ->
  ~ In (in_selected_country inp) (Pd.Country d) ->
  tab2 env inp df h
  = ([St.selectbox "Choose a target market:" (Pd.Country d)], h,
     St.Raised "IndexError").
Proof.
  intros W Hd Hc. apply tab2_missing; [assumption |].
  unfold country_data_of.
  destruct (find _ (Pd.rows d)) as [r |] eqn:E; [| reflexivity].
  apply find_some in E as [Hin He]. apply String.eqb_eq in He.
  exfalso. apply Hc. rewrite <- (rows_Country d W), <- He. now apply in_map.
Qed.

Lemma tab2_unknown_country_witness :
  tab2 env_ok
    (mkInputs [] 5 "France" "car" "price" "people" true "Retention") 0
    [mock_data]
  = ([St.selectbox "Choose a target market:" (Pd.Country mock_data)],
     [mock_data], St.Raised "IndexError").
Proof.
  apply (tab2_unknown_country env_ok
           (mkInputs [] 5 "France" "car" "price" "people" true "Retention")
           0 [mock_data] mock_data);
    [exact mock_data_wf | reflexivity |].
  cbn. intros H.
  repeat match goal with
    | H : _ \/ _ |- _ => destruct H as [H | H]; [discriminate H |]
    end.
  exact H.
Defined.

(** For each of the five selectable KPIs tab 3 never raises: the metric
    is known, every region has its series, and the tab shows the chart
    and exactly one feedback line per region, in the order of the
    telemetry table, without touching the store. *)
Theorem tab3_never_raises (inp : Inputs) (h : St.heap) :
  In (in_selected_kpi inp) kpi_options ->
  exists metric traces notes,
    Py.get kpi_map (in_selected_kpi inp) = Some metric /\
    traces_for metric = Some traces /\
    notes_for metric = Some notes /\
    map fst traces = map fst telemetry /\
    map fst notes = map fst telemetry /\
    tab3 inp h = (tab3_page (in_selected_kpi inp) traces notes, h, St.Done tt).
Proof.
  intros H.
  destruct (kpi_known _ H) as (metric & traces & notes & Hm & Ht & Hn & F1 & F2).
  exists metric, traces, notes.
  repeat match goal with |- _ /\ _ => split end; try assumption.
  now apply tab3_run with (metric := metric).
Qed.

Lemma tab3_never_raises_witness :
  exists metric traces notes,
    Py.get kpi_map (in_selected_kpi inputs_pressed) = Some metric /\
    traces_for metric = Some traces /\
    notes_for metric = Some notes /\
    map fst traces = map fst telemetry /\
    map fst notes = map fst telemetry /\
    tab3 inputs_pressed []
    = (tab3_page (in_selected_kpi inputs_pressed) traces notes, [], St.Done tt).
Proof.
  apply (tab3_never_raises inputs_pressed []). right. left. reflexivity.
Defined.

(** A KPI name that is not one of the five options makes tab 3 raise a
    [KeyError] right after the selectbox: no chart and no feedback. *)
Theorem tab3_unknown_kpi (inp : Inputs) (h : St.heap) :
  ~ In (in_selected_kpi inp) kpi_options ->
  tab3 inp h
  = ([St.selectbox "Select KPI to visualize:" kpi_options], h,
     St.Raised "KeyError").
Proof.
  intros H. unfold tab3. st_step.
  rewrite (get_None_keys kpi_map (in_selected_kpi inp) H). reflexivity.
Qed.

Lemma tab3_unknown_kpi_witness :
  tab3 (mkInputs [] 5 "Norway" "car" "price" "people" false "CTR") []
  = ([St.selectbox "Select KPI to visualize:" kpi_options], [],
     St.Raised "KeyError").
Proof.
  apply (tab3_unknown_kpi
           (mkInputs [] 5 "Norway" "car" "price" "people" false "CTR") []).
  cbn. intros H.
  repeat match goal with
    | H : _ \/ _ |- _ => destruct H as [H | H]; [discriminate H |]
    end.
  exact H.
Defined.

(** ** The whole run (lines 10-224) *)

Lemma seq_run {A B : Type} (m : St.M A) (k : A -> St.M B) (h h1 h2 : St.heap)
    (e1 e2 : list St.Event) (a : A) (o : St.outcome B) :
  m h = (e1, h1, St.Done a) -> k a h1 = (e2, h2, o) ->
  St.bind m k h = (e1 ++ e2, h2, o).
Proof. intros H1 H2. unfold St.bind. now rewrite H1, H2. Qed.

Lemma seq_raise {A B : Type} (m : St.M A) (k : A -> St.M B) (h h1 : St.heap)
    (e1 : list St.Event) (x : string) :
  m h = (e1, h1, St.Raised x) -> St.bind m k h = (e1, h1, St.Raised x).
Proof. intros H1. unfold St.bind. now rewrite H1. Qed.

(** Tab 1 on the table, as the script runs it. *)
Lemma tab1_on_table (inp : Inputs) :
  exists page1 s ranked,
    tab1 inp 0 [mock_data]
    = (page1, [Pd.set_Score mock_data s; ranked], St.Done tt) /\
    Pd.wf (Pd.set_Score mock_data s).
Proof.
  assert (H8 : 5 <= Pd.len mock_data) by (change (Pd.len mock_data) with 8; lia).
  destruct (tab1_run inp [mock_data] 0 mock_data eq_refl mock_data_wf H8)
    as (s & ranked & top & sc & cols & Hs & _ & _ & _ & _ & _ & Hrun).
  eexists. exists s, ranked. split; [exact Hrun |].
  apply set_Score_wf; [exact mock_data_wf |].
  exact (Score_expr_size mock_data _ s mock_data_wf Hs).
Qed.

(** With a working credential, a country of the table, one of the five
    KPIs, and either the button not pressed or a chat service that
    answers, the run ends normally: it shows the header, the tab bar and
    then what the three tabs show, in this order, on one store that ends
    with two frames ([df] with its scores, and the ranking). *)
Theorem script_completes (env : Env) (inp : Inputs) (client : string) :
  load_client env = Some client ->
  In (in_selected_country inp) (Pd.Country mock_data) ->
  In (in_selected_kpi inp) kpi_options ->
  (in_button inp = false \/ forall m, chat_create env m <> None) ->
  exists page1 page2 page3 h1,
    tab1 inp 0 [mock_data] = (page1, h1, St.Done tt) /\
    tab2 env inp 0 h1 = (page2, h1, St.Done tt) /\
    tab3 inp h1 = (page3, h1, St.Done tt) /\
    length h1 = 2 /\
    script env inp []
    = (header ++ St.tabs tab_labels :: page1 ++ page2 ++ page3, h1, St.Done tt).
Proof.
  intros L Hc Hk Hb.
  destruct (tab1_on_table inp) as (page1 & s & ranked & H1 & W1).
  destruct (country_data_found (Pd.set_Score mock_data s) _ W1 Hc) as [r Hr].
  pose proof (tab2_run env inp [Pd.set_Score mock_data s; ranked] 0 _ r
                eq_refl Hr) as H2.
  destruct (kpi_known _ Hk) as (metric & traces & notes & Hm & Ht & Hn & _).
  pose proof (tab3_run inp [Pd.set_Score mock_data s; ranked] metric traces notes
                Hm Ht Hn) as H3.
  assert (exists page2,
             tab2 env inp 0 [Pd.set_Score mock_data s; ranked]
             = (page2, [Pd.set_Score mock_data s; ranked], St.Done tt))
    as [page2 H2'].
  { rewrite H2. destruct (in_button inp) eqn:B; [| eauto].
    destruct Hb as [Hb | Hb]; [discriminate |].
    specialize (Hb (tab2_messages r inp)).
    destruct (chat_create env (tab2_messages r inp)); [eauto | congruence]. }
  exists page1, page2, (tab3_page (in_selected_kpi inp) traces notes),
    [Pd.set_Score mock_data s; ranked].
  split; [exact H1 |]. split; [exact H2' |]. split; [exact H3 |].
  split; [reflexivity |].
  apply (script_run env inp client _ _ _ L).
  apply (seq_run _ _ _ _ _ _ _ tt _ H1).
  apply (seq_run _ _ _ _ _ _ _ tt _ H2').
  exact H3.
Qed.

Lemma script_completes_witness :
  exists page1 page2 page3 h1,
    tab1 inputs_default 0 [mock_data] = (page1, h1, St.Done tt) /\
    tab2 env_ok inputs_default 0 h1 = (page2, h1, St.Done tt) /\
    tab3 inputs_default h1 = (page3, h1, St.Done tt) /\
    length h1 = 2 /\
    script env_ok inputs_default []
    = (header ++ St.tabs tab_labels :: page1 ++ page2 ++ page3, h1, St.Done tt).
Proof.
  apply (script_completes env_ok inputs_default "sk-test");
    [reflexivity | left; reflexivity | left; reflexivity | left; reflexivity].
Defined.

(** A failing chat service is not handled: when the button is pressed
    and the call raises, the run ends in that exception right after the
    request.  Tab 1 has been shown in full and the form of tab 2 too;
    no success message, no plan, and nothing of tab 3 is shown. *)
Theorem api_failure_aborts_run (env : Env) (inp : Inputs) (client : string) :
  load_client env = Some client ->
  In (in_selected_country inp) (Pd.Country mock_data) ->
  in_button inp = true ->
  (forall m, chat_create env m = None) ->
  exists page1 h1 d1 r,
    tab1 inp 0 [mock_data] = (page1, h1, St.Done tt) /\
    nth_error h1 0 = Some d1 /\
    country_data_of d1 (in_selected_country inp) = Some r /\
    script env inp []
    = (header ++ St.tabs tab_labels :: page1 ++ tab2_form d1 inp
       ++ [ St.spinner "Thinking like a strategist...";
            St.chat_completion "gpt-4" (tab2_messages r inp) ],
       h1, St.Raised "APIError").
Proof.
  intros L Hc Hb Hapi.
  destruct (tab1_on_table inp) as (page1 & s & ranked & H1 & W1).
  destruct (country_data_found (Pd.set_Score mock_data s) _ W1 Hc) as [r Hr].
  pose proof (tab2_run env inp [Pd.set_Score mock_data s; ranked] 0 _ r
                eq_refl Hr) as H2.
  rewrite Hb, Hapi in H2.
  exists page1, [Pd.set_Score mock_data s; ranked], (Pd.set_Score mock_data s), r.
  split; [exact H1 |]. split; [reflexivity |]. split; [exact Hr |].
  apply (script_run env inp client _ _ _ L).
  apply (seq_run _ _ _ _ _ _ _ tt _ H1).
  now apply seq_raise.
Qed.

Lemma api_failure_aborts_run_witness :
  exists page1 h1 d1 r,
    tab1 inputs_pressed 0 [mock_data] = (page1, h1, St.Done tt) /\
    nth_error h1 0 = Some d1 /\
    country_data_of d1 (in_selected_country inputs_pressed) = Some r /\
    script env_api_down inputs_pressed []
    = (header ++ St.tabs tab_labels :: page1 ++ tab2_form d1 inputs_pressed
       ++ [ St.spinner "Thinking like a strategist...";
            St.chat_completion "gpt-4" (tab2_messages r inputs_pressed) ],
       h1, St.Raised "APIError").
Proof.
  apply (api_failure_aborts_run env_api_down inputs_pressed "sk-test");
    [reflexivity | do 3 right; left; reflexivity | reflexivity
    | intros m; reflexivity].
Defined.

(** ** Two consequences for what the user sees *)

(** The rows shown are the best ones: no ranked row left out by [top_n]
    has a strictly greater score than a row that is shown. *)
Theorem shown_rows_are_best (d : Pd.DataFrame) (w : Py.dict num)
    (ranked : Pd.DataFrame) (n i j : nat) (r r' : Pd.Row) :
  Pd.wf d -> rank d w = Some ranked ->
  i < n -> n <= j ->
  Pd.iloc (top_n ranked n) i = Some r -> Pd.iloc ranked j = Some r' ->
  exists x y,
    Pd.row_Score r = Some (F x) /\ Pd.row_Score r' = Some (F y) /\
    F64.ltb x y = false.
Proof.
  intros W Hr Hi Hj Hri Hrj.
  destruct (Score_expr d w) as [s |] eqn:Hs;
    [| unfold rank in Hr; rewrite Hs in Hr; discriminate].
  destruct (Score_expr_float d w s Hs) as [l ->].
  destruct (rank_spec d w _ W Hs) as (ranked' & Hr' & Wr & _ & Hiloc).
  assert (ranked' = ranked) by congruence. subst ranked'.
  unfold top_n in Hri. rewrite iloc_head in Hri.
  destruct (Nat.ltb_spec i n); [| lia].
  destruct (ranked_row d ranked l i r Hiloc Hri) as (p & x & Hp & Hx & Hsx).
  destruct (ranked_row d ranked l j r' Hiloc Hrj) as (q & y & Hq & Hy & Hsy).
  exists x, y. split; [assumption |]. split; [assumption |].
  pose proof (sorted_cells_nth l i p x Hp Hx) as Li.
  pose proof (sorted_cells_nth l j q y Hq Hy) as Lj.
  destruct (StronglySorted_nth _ _ (sorted_cells_sorted l) i j _ _
              ltac:(lia) Li Lj) as [C _].
  exact C.
Qed.

Lemma shown_rows_are_best_witness :
  Pd.wf mock_data /\
  rank mock_data (compute_weights ["Market Size"]) = Some market_size_ranked /\
  0 < 5 /\ 5 <= 7 /\
  Pd.iloc (top_n market_size_ranked 5) 0 = Some market_size_first /\
  Pd.iloc market_size_ranked 7 = Some market_size_last /\
  exists x y,
    Pd.row_Score market_size_first = Some (F x) /\
    Pd.row_Score market_size_last = Some (F y) /\
    F64.ltb x y = false.
Proof.
  split; [exact mock_data_wf |].
  split; [vm_compute; reflexivity |].
  split; [lia |]. split; [lia |].
  split; [vm_compute; reflexivity |].
  split; [vm_compute; reflexivity |].
  apply (shown_rows_are_best mock_data (compute_weights ["Market Size"])
           market_size_ranked 5 0 7 market_size_first market_size_last);
    [exact mock_data_wf | vm_compute; reflexivity | lia | lia
    | vm_compute; reflexivity | vm_compute; reflexivity].
Defined.

Lemma gt_0_3_integer (z : Z) : Py.gt (I z) (F f_0_3) = (1 <=? z)%Z.
Proof.
  unfold Py.gt, Py.compare, Py.cmp_Z_F, f_0_3.
  change (0 <=? -54)%Z with false. cbv beta iota zeta.
  change (cond_Zopp false 5404319552844595) with 5404319552844595%Z.
  change (2 ^ (- -54))%Z with 18014398509481984%Z.
  destruct (Z.compare_spec (z * 18014398509481984) 5404319552844595);
    destruct (Z.leb_spec 1 z); try reflexivity; lia.
Qed.

Lemma lt_0_1_integer (z : Z) : Py.lt (I z) (F f_0_1) = (z <=? 0)%Z.
Proof.
  unfold Py.lt, Py.compare, Py.cmp_Z_F, f_0_1.
  change (0 <=? -56)%Z with false. cbv beta iota zeta.
  change (cond_Zopp false 7205759403792794) with 7205759403792794%Z.
  change (2 ^ (- -56))%Z with 72057594037927936%Z.
  destruct (Z.compare_spec (z * 72057594037927936) 7205759403792794);
    destruct (Z.leb_spec z 0); try reflexivity; lia.
Qed.

(** With integer observations the trend is an integer, and the thresholds
    0.3 and 0.1 leave no room between them: for the four higher-is-better
    metrics the note is the momentum one iff the trend is at least 1 and
    the underwhelming one iff it is at most 0, never the stable one; for
    CPI it is momentum iff the trend is at most -3, underwhelming iff it
    is at least 2, and stable for -2, -1, 0 and 1. *)
Theorem note_integer_trend (metric : string) (z : Z) :
  (In metric higher_is_better ->
     (note metric (I z) = note_momentum <-> (1 <= z)%Z) /\
     (note metric (I z) = note_underwhelming <-> (z <= 0)%Z) /\
     note metric (I z) <> note_stable) /\
  (note "CPI" (I z) = note_momentum <-> (z <= -3)%Z) /\
  (note "CPI" (I z) = note_underwhelming <-> (2 <= z)%Z) /\
  (note "CPI" (I z) = note_stable <-> (-2 <= z <= 1)%Z).
Proof.
  destruct notes_distinct as (MU & MS & US).
  split.
  - intros H. rewrite (note_higher metric (I z) H).
    rewrite gt_0_3_integer, lt_0_1_integer.
    destruct (Z.leb_spec 1 z); destruct (Z.leb_spec z 0);
      repeat split; intros; try reflexivity; try lia; try congruence;
      exfalso; congruence.
  - rewrite note_CPI. unfold Py.lt, Py.gt, Py.compare.
    destruct (Z.compare_spec z (-2)); destruct (Z.compare_spec z 1);
      repeat split; intros; try reflexivity; try lia; try congruence;
      exfalso; congruence.
Qed.
